(** * yarpl/flowable/Subscriber.h

    A shallow embedding of the reactive-streams [Subscriber] of yarpl:
    the [BaseSubscriber] state machine, the batched auto-refill adapters
    [details::Base], [details::WithError], [details::WithErrorAndComplete]
    and the [NullSubscriber] of the zero-argument factory.

    Methods are state transformers over the object's fields.  Every call
    into code that the header does not define (the user's callables, the
    producer's [Subscription], the hooks of an arbitrary subclass) is a
    call into foreign code, which may re-enter the subscriber, return,
    throw, or never be reached; what the subscriber dispatches is recorded
    in a trace of events. *)

From Stdlib Require Import ZArith List Bool String Lia.
Import ListNotations.
Open Scope Z_scope.

(** ** Machine integers *)

Definition INT64_MIN : Z := - 2 ^ 63.
Definition INT64_MAX : Z := 2 ^ 63 - 1.

(** An [int64_t] result, reduced to its two's-complement range. *)
Definition wrap64 (z : Z) : Z := (z + 2 ^ 63) mod 2 ^ 64 - 2 ^ 63.

(** ** Subscriptions and exceptions *)

(** A [std::shared_ptr<Subscription>] is the identity of a producer-side
    object, or null. *)
Definition Subscription : Type := nat.

(** What [std::exception::what()] reports. *)
Definition std_exception : Type := string.

(** [folly::exception_wrapper{std::current_exception(), exn}]. *)
Inductive exception_wrapper : Type :=
| Wrap (exn : std_exception).

Definition what (ew : exception_wrapper) : string :=
  match ew with Wrap exn => exn end.

(** A thrown value, by the [catch] clauses of the header it can meet:
    only the first kind matches [catch (const std::exception&)]. *)
Inductive thrown : Type :=
| StdException (exn : std_exception)
| WrapperThrown (ew : exception_wrapper)   (* [throw ew;] *)
| OtherThrown (tag : nat).

(** How a call ends: it returns, an exception leaves it, or a failed
    [CHECK] has aborted the process. *)
Inductive outcome (A : Type) : Type :=
| Done (a : A)
| Raised (x : thrown)
| Aborted.
Arguments Done {A} a.
Arguments Raised {A} x.
Arguments Aborted {A}.

(** The classes that derive from [BaseSubscriber<T>]: the three adapters of
    [namespace details], and any other subclass, all of whose hooks are
    foreign code. *)
Inductive derived : Type :=
| Custom
| details_Base
| details_WithError
| details_WithErrorAndComplete.

(** The points at which control leaves the header. *)
Inductive ext : Type :=
| NextCb | ErrorCb | CompleteCb            (* [next_], [error_], [complete_] *)
| SubRequest | SubCancel                   (* [sub->request(n)], [sub->cancel()] *)
| HookSubscribe | HookNext | HookComplete  (* the hooks of a [Custom] subclass *)
| HookError | HookTerminate.

Definition exts : list ext :=
  [NextCb; ErrorCb; CompleteCb; SubRequest; SubCancel;
   HookSubscribe; HookNext; HookComplete; HookError; HookTerminate].

Section Model.

Variable T : Type.

(** ** Events *)

Inductive event : Type :=
(* a hook of [BaseSubscriber] is entered *)
| EvOnSubscribeImpl
| EvOnNextImpl (t : T)
| EvOnCompleteImpl
| EvOnErrorImpl (e : exception_wrapper)
| EvOnTerminateImpl
(* [BaseSubscriber::request(n)] is entered *)
| EvRequest (n : Z)
(* a method of the producer's [Subscription] is called *)
| EvSubRequest (s : Subscription) (n : Z)
| EvSubCancel (s : Subscription)
(* a callable of the user is called *)
| EvNext (t : T)
| EvError (e : exception_wrapper)
| EvComplete
(* [LOG(ERROR) << "'next' method should not throw: " << ew.what()], and the
   like for ['error'] and ['complete'] *)
| EvLogError (cb : ext) (w : string).

(** ** A state, exception and trace monad *)

Definition M (S A : Type) : Type := S -> outcome A * S * list event.

Definition ret {S A} (a : A) : M S A := fun s => (Done a, s, []).

Definition bind {S A B} (m : M S A) (f : A -> M S B) : M S B :=
  fun s =>
    match m s with
    | (Done a, s1, tr1) =>
        match f a s1 with (r, s2, tr2) => (r, s2, tr1 ++ tr2) end
    | (Raised x, s1, tr1) => (Raised x, s1, tr1)
    | (Aborted, s1, tr1) => (Aborted, s1, tr1)
    end.

Definition emit {S} (e : event) : M S unit := fun s => (Done tt, s, [e]).
Definition gets {S A} (f : S -> A) : M S A := fun s => (Done (f s), s, []).
Definition modify {S} (f : S -> S) : M S unit := fun s => (Done tt, f s, []).
Definition throw {S A} (x : thrown) : M S A := fun s => (Raised x, s, []).
Definition abort {S A} : M S A := fun s => (Aborted, s, []).

(** [try { m } catch (const std::exception& exn) { h exn }] *)
Definition catch_std {S A} (m : M S A) (h : std_exception -> M S A) : M S A :=
  fun s =>
    match m s with
    | (Raised (StdException exn), s1, tr1) =>
        match h exn s1 with (r, s2, tr2) => (r, s2, tr1 ++ tr2) end
    | other => other
    end.

(** Foreign code that catches whatever a call throws and goes on. *)
Definition swallow {S} (m : M S unit) : M S unit :=
  fun s =>
    match m s with
    | (Raised _, s1, tr1) => (Done tt, s1, tr1)
    | other => other
    end.

(** [CHECK(b)]: abort unless [b]. *)
Definition CHECK {S} (b : bool) : M S unit :=
  if b then ret tt else abort.

End Model.

Arguments EvOnSubscribeImpl {T}.
Arguments EvOnNextImpl {T} t.
Arguments EvOnCompleteImpl {T}.
Arguments EvOnErrorImpl {T} e.
Arguments EvOnTerminateImpl {T}.
Arguments EvRequest {T} n.
Arguments EvSubRequest {T} s n.
Arguments EvSubCancel {T} s.
Arguments EvNext {T} t.
Arguments EvError {T} e.
Arguments EvComplete {T}.
Arguments EvLogError {T} cb w.
Arguments ret {T S A} a.
Arguments bind {T S A B} m f.
Arguments emit {T S} e.
Arguments gets {T S A} f.
Arguments modify {T S} f.
Arguments throw {T S A} x.
Arguments abort {T S A}.
Arguments catch_std {T S A} m h.
Arguments swallow {T S} m.
Arguments CHECK {T S} b.

Declare Scope method_scope.
Delimit Scope method_scope with method.
Notation "x <- m ;; k" := (bind m (fun x => k))
  (at level 61, m at next level, right associativity) : method_scope.
Notation "m ;; k" := (bind m (fun _ => k))
  (at level 61, right associativity) : method_scope.
Open Scope method_scope.

(** ** Objects *)

(** The fields of [BaseSubscriber<T, keep_reference_to_this>].  The two
    flags exist in debug builds only; a release build neither reads nor
    writes them.  [KEEP_REF_TO_THIS] pins the object for the duration of a
    call and has no effect on what is dispatched. *)
Record BaseSubscriber : Type := mkBaseSubscriber {
  subscription_ : option Subscription;
  gotOnSubscribe_ : bool;
  gotTerminating_ : bool
}.

(** [details::Base<T, Next>] adds the credit window to its base class.  An
    object of another subclass carries the two fields unused. *)
Record Base : Type := mkBase {
  super : BaseSubscriber;
  batch_ : Z;
  pending_ : Z
}.

Definition set_subscription_ (v : option Subscription) (o : Base) : Base :=
  mkBase (mkBaseSubscriber v (gotOnSubscribe_ (super o)) (gotTerminating_ (super o)))
         (batch_ o) (pending_ o).

Definition set_gotOnSubscribe_ (v : bool) (o : Base) : Base :=
  mkBase (mkBaseSubscriber (subscription_ (super o)) v (gotTerminating_ (super o)))
         (batch_ o) (pending_ o).

Definition set_gotTerminating_ (v : bool) (o : Base) : Base :=
  mkBase (mkBaseSubscriber (subscription_ (super o)) (gotOnSubscribe_ (super o)) v)
         (batch_ o) (pending_ o).

Definition set_pending_ (v : Z) (o : Base) : Base :=
  mkBase (super o) (batch_ o) v.

Definition is_some {A} (o : option A) : bool :=
  match o with Some _ => true | None => false end.

(** [Base(Next next, int64_t batch) : next_(next), batch_(batch), pending_(0)] *)
Definition Base_new (batch : Z) : Base :=
  mkBase (mkBaseSubscriber None false false) batch 0.

Section Methods.

Variable T : Type.

(** [true] for a release build (NDEBUG defined). *)
Variable NDEBUG : bool.

(** The dynamic type of the object. *)
Variable cls : derived.

(** What the foreign code does when it is entered at each point. *)
Variable foreign : ext -> M T Base unit.

Let Method := M T Base unit.

(** *** The subscription slot: [AtomicReference<Subscription>] *)

Definition atomic_load : M T Base (option Subscription) :=
  gets (fun o => subscription_ (super o)).

Definition atomic_store (v : option Subscription) : Method :=
  modify (set_subscription_ v).

Definition atomic_exchange (v : option Subscription)
  : M T Base (option Subscription) :=
  old <- atomic_load ;; modify (set_subscription_ v) ;; ret old.

(** [gotOnSubscribe_.exchange(v)], [gotTerminating_.exchange(v)] *)
Definition gotOnSubscribe_exchange (v : bool) : M T Base bool :=
  old <- gets (fun o => gotOnSubscribe_ (super o)) ;;
  modify (set_gotOnSubscribe_ v) ;; ret old.

Definition gotTerminating_exchange (v : bool) : M T Base bool :=
  old <- gets (fun o => gotTerminating_ (super o)) ;;
  modify (set_gotTerminating_ v) ;; ret old.

(** A statement under [#ifndef NDEBUG]. *)
Definition ifndef_NDEBUG (m : Method) : Method :=
  if NDEBUG then ret tt else m.

(** *** [BaseSubscriber::onTerminateImpl], [request], [cancel] *)

(** [virtual void onTerminateImpl() {}]; no adapter overrides it. *)
Definition onTerminateImpl : Method :=
  emit EvOnTerminateImpl ;;
  match cls with
  | Custom => foreign HookTerminate
  | _ => ret tt
  end.

Definition request (n : Z) : Method :=
  emit (EvRequest n) ;;
  sub <- atomic_load ;;
  match sub with
  | Some s => emit (EvSubRequest s n) ;; foreign SubRequest
  | None => ret tt
  end.

Definition cancel : Method :=
  sub <- atomic_exchange None ;;
  match sub with
  | Some s => emit (EvSubCancel s) ;; foreign SubCancel ;; onTerminateImpl
  | None => ret tt
  end.

(** *** The hooks of the adapters *)

(** [WithError::onErrorImpl] *)
Definition WithError_onErrorImpl (error : exception_wrapper) : Method :=
  catch_std
    (emit (EvError error) ;; foreign ErrorCb)
    (fun exn =>
       let ew := Wrap exn in
       emit (EvLogError ErrorCb (what ew)) ;;
       if NDEBUG then ret tt else throw (WrapperThrown ew)).

(** [WithErrorAndComplete::onCompleteImpl] *)
Definition WithErrorAndComplete_onCompleteImpl : Method :=
  catch_std
    (emit EvComplete ;; foreign CompleteCb)
    (fun exn =>
       let ew := Wrap exn in
       emit (EvLogError CompleteCb (what ew)) ;;
       if NDEBUG then ret tt else throw (WrapperThrown ew)).

(** Virtual dispatch of [onErrorImpl] and [onCompleteImpl]. *)
Definition onErrorImpl (e : exception_wrapper) : Method :=
  emit (EvOnErrorImpl e) ;;
  match cls with
  | Custom => foreign HookError
  | details_Base => ret tt
  | details_WithError | details_WithErrorAndComplete => WithError_onErrorImpl e
  end.

Definition onCompleteImpl : Method :=
  emit EvOnCompleteImpl ;;
  match cls with
  | Custom => foreign HookComplete
  | details_Base | details_WithError => ret tt
  | details_WithErrorAndComplete => WithErrorAndComplete_onCompleteImpl
  end.

(** [Base::onSubscribeImpl] *)
Definition Base_onSubscribeImpl : Method :=
  modify (fun o => set_pending_ (wrap64 (pending_ o + batch_ o)) o) ;;
  batch <- gets batch_ ;;
  request batch.

(** [Base::onNextImpl].  The [try] block yields [false] when [next_]
    returns and the handler yields [true] after its [return]. *)
Definition Base_onNextImpl (value : T) : Method :=
  caught <-
    catch_std
      (emit (EvNext value) ;; foreign NextCb ;; ret false)
      (fun exn =>
         cancel ;;
         let ew := Wrap exn in
         emit (EvLogError NextCb (what ew)) ;;
         onErrorImpl ew ;;
         ret true) ;;
  if (caught : bool) then ret tt
  else
    modify (fun o => set_pending_ (wrap64 (pending_ o - 1)) o) ;;
    pending <- gets pending_ ;;
    batch <- gets batch_ ;;
    if pending <? Z.quot batch 2 then
      let delta := wrap64 (batch - pending) in
      modify (fun o => set_pending_ (wrap64 (pending_ o + delta)) o) ;;
      request delta
    else ret tt.

Definition onSubscribeImpl : Method :=
  emit EvOnSubscribeImpl ;;
  match cls with
  | Custom => foreign HookSubscribe
  | _ => Base_onSubscribeImpl
  end.

Definition onNextImpl (t : T) : Method :=
  emit (EvOnNextImpl t) ;;
  match cls with
  | Custom => foreign HookNext
  | _ => Base_onNextImpl t
  end.

(** *** The signal methods of [BaseSubscriber] *)

Definition onSubscribe (subscription : option Subscription) : Method :=
  CHECK (is_some subscription) ;;
  cur <- atomic_load ;;
  CHECK (negb (is_some cur)) ;;
  ifndef_NDEBUG (old <- gotOnSubscribe_exchange true ;; CHECK (negb old)) ;;
  atomic_store subscription ;;
  onSubscribeImpl.

Definition onComplete : Method :=
  ifndef_NDEBUG
    (got <- gets (fun o => gotOnSubscribe_ (super o)) ;;
     CHECK got ;;
     old <- gotTerminating_exchange true ;;
     CHECK (negb old)) ;;
  sub <- atomic_exchange None ;;
  match sub with
  | Some _ => onCompleteImpl ;; onTerminateImpl
  | None => ret tt
  end.

Definition onError (e : exception_wrapper) : Method :=
  ifndef_NDEBUG
    (got <- gets (fun o => gotOnSubscribe_ (super o)) ;;
     CHECK got ;;
     old <- gotTerminating_exchange true ;;
     CHECK (negb old)) ;;
  sub <- atomic_exchange None ;;
  match sub with
  | Some _ => onErrorImpl e ;; onTerminateImpl
  | None => ret tt
  end.

Definition onNext (t : T) : Method :=
  ifndef_NDEBUG
    (got <- gets (fun o => gotOnSubscribe_ (super o)) ;;
     CHECK got) ;;
  sub <- atomic_load ;;
  match sub with
  | Some _ => onNextImpl t
  | None => ret tt
  end.

End Methods.

(** ** Calls and foreign code *)

Section Calls.

Variable T : Type.

(** A call on the subscriber. *)
Inductive op : Type :=
| OnSubscribe (s : option Subscription)
| OnNext (t : T)
| OnComplete
| OnError (e : exception_wrapper)
| Cancel
| Request (n : Z).

(** What a piece of foreign code does in one run: the calls it makes on
    the subscriber, in order, and how it ends.  A call carries what the
    foreign code reached from it does at each point.  After [Do] an
    exception of the call leaves the foreign code too; after [Try] the
    foreign code has caught it. *)
Inductive script : Type :=
| Return
| Throw (x : thrown)
| Do (c : call) (k : script)
| Try (c : call) (k : script)
with call : Type :=
| Call (o : op) (env : ext -> script).

(** Foreign code that returns at once, at every point. *)
Definition quiet : ext -> script := fun _ => Return.

Section Driver.

Variable S : Type.
Variable dispatch : (ext -> M T S unit) -> op -> M T S unit.

Fixpoint run_script (k : script) : M T S unit :=
  match k with
  | Return => ret tt
  | Throw x => throw x
  | Do c k' => run_call c ;; run_script k'
  | Try c k' => swallow (run_call c) ;; run_script k'
  end
with run_call (c : call) : M T S unit :=
  match c with
  | Call o env => dispatch (fun x => run_script (env x)) o
  end.

End Driver.

(** The public methods of a [BaseSubscriber]. *)
Definition BaseSubscriber_dispatch (NDEBUG : bool) (cls : derived)
    (foreign : ext -> M T Base unit) (o : op) : M T Base unit :=
  match o with
  | OnSubscribe s => onSubscribe T NDEBUG cls foreign s
  | OnNext t => onNext T NDEBUG cls foreign t
  | OnComplete => onComplete T NDEBUG cls foreign
  | OnError e => onError T NDEBUG cls foreign e
  | Cancel => cancel T cls foreign
  | Request n => request T foreign n
  end.

Definition run (NDEBUG : bool) (cls : derived) (k : script) : M T Base unit :=
  run_script Base (BaseSubscriber_dispatch NDEBUG cls) k.

(** *** The factory surface *)

(** [credits::kNoFlowControl] is declared in yarpl/utils/credits.h. *)
Variable kNoFlowControl : Z.

Definition default_batch (batch : option Z) : Z :=
  match batch with Some b => b | None => kNoFlowControl end.

(** [Subscriber<T>::create(next, batch)] and its two siblings: the class of
    the object made and its fields. *)
Definition create_next (batch : option Z) : derived * Base :=
  (details_Base, Base_new (default_batch batch)).

Definition create_next_error (batch : option Z) : derived * Base :=
  (details_WithError, Base_new (default_batch batch)).

Definition create_next_error_complete (batch : option Z) : derived * Base :=
  (details_WithErrorAndComplete, Base_new (default_batch batch)).

(** *** [NullSubscriber], made by [Subscriber<T>::create()]

    It derives from [Subscriber<T>] directly and has no fields; [cancel]
    and [request] are not members of it.  [s->request] on a null pointer
    ends the process. *)
Definition NullSubscriber_onSubscribe (foreign : ext -> M T unit unit)
    (s : option Subscription) : M T unit unit :=
  match s with
  | Some sub => emit (EvSubRequest sub kNoFlowControl) ;; foreign SubRequest
  | None => abort
  end.

Definition NullSubscriber_dispatch (foreign : ext -> M T unit unit) (o : op)
  : M T unit unit :=
  match o with
  | OnSubscribe s => NullSubscriber_onSubscribe foreign s
  | OnNext _ => ret tt
  | OnComplete => ret tt
  | OnError _ => ret tt
  | Cancel => ret tt
  | Request _ => ret tt
  end.

Definition run_null (k : script) : M T unit unit :=
  run_script unit NullSubscriber_dispatch k.

End Calls.

Arguments OnSubscribe {T} s.
Arguments OnNext {T} t.
Arguments OnComplete {T}.
Arguments OnError {T} e.
Arguments Cancel {T}.
Arguments Request {T} n.
Arguments Return {T}.
Arguments Throw {T} x.
Arguments Do {T} c k.
Arguments Try {T} c k.
Arguments Call {T} o env.
Arguments quiet {T} _.
Arguments run {T} NDEBUG cls k _.
Arguments run_null {T} kNoFlowControl k _.

(** ** Observations on traces *)

Section Observations.

Variable T : Type.

Definition trace_of {S A} (x : outcome A * S * list (event T)) : list (event T) :=
  snd x.

(** The sum of a weight over a trace. *)
Fixpoint total (w : event T -> Z) (tr : list (event T)) : Z :=
  match tr with
  | [] => 0
  | e :: tr' => w e + total w tr'
  end.

Definition count (p : event T -> bool) : list (event T) -> Z :=
  total (fun e => if p e then 1 else 0).

(** [onCompleteImpl], [onErrorImpl] or the producer's [cancel] is entered. *)
Definition is_terminal_dispatch (e : event T) : bool :=
  match e with
  | EvOnCompleteImpl | EvOnErrorImpl _ | EvSubCancel _ => true
  | _ => false
  end.

Definition is_onTerminateImpl (e : event T) : bool :=
  match e with EvOnTerminateImpl => true | _ => false end.

Definition is_onCompleteImpl (e : event T) : bool :=
  match e with EvOnCompleteImpl => true | _ => false end.

Definition is_onNextImpl (e : event T) : bool :=
  match e with EvOnNextImpl _ => true | _ => false end.

(** [onSubscribe] has stored a subscription and entered [onSubscribeImpl]. *)
Definition is_onSubscribeImpl (e : event T) : bool :=
  match e with EvOnSubscribeImpl => true | _ => false end.

Definition is_producer_cancel (e : event T) : bool :=
  match e with EvSubCancel _ => true | _ => false end.

(** The handler of [Base::onNextImpl] has caught what [next_] threw. *)
Definition is_next_caught (e : event T) : bool :=
  match e with EvLogError NextCb _ => true | _ => false end.

Definition is_error_callback (e : event T) : bool :=
  match e with EvError _ => true | _ => false end.

Definition is_complete_callback (e : event T) : bool :=
  match e with EvComplete => true | _ => false end.

(** The credit that the calls of [request] have asked for. *)
Definition granted : list (event T) -> Z :=
  total (fun e => match e with EvRequest n => n | _ => 0 end).

(** The arguments of the calls of [request], in order. *)
Fixpoint grants (tr : list (event T)) : list Z :=
  match tr with
  | [] => []
  | EvRequest n :: tr' => n :: grants tr'
  | _ :: tr' => grants tr'
  end.

(** The values handed to [next_], in order. *)
Fixpoint received (tr : list (event T)) : list T :=
  match tr with
  | [] => []
  | EvNext t :: tr' => t :: received tr'
  | _ :: tr' => received tr'
  end.

(** The producer never delivers a value without credit; [c] is the credit
    it holds before the trace. *)
Fixpoint compliant (c : Z) (tr : list (event T)) : bool :=
  match tr with
  | [] => true
  | EvOnNextImpl _ :: tr' => (0 <? c) && compliant (c - 1) tr'
  | EvRequest n :: tr' => compliant (c + n) tr'
  | _ :: tr' => compliant c tr'
  end.

(** The ceiling of [b / 2], for a positive [b]. *)
Definition half_up (b : Z) : Z := (b + 1) ÷ 2.

(** A call of [request] whose argument is not between [half_up b] and [b]. *)
Definition out_of_bounds (b : Z) (e : event T) : bool :=
  match e with
  | EvRequest n => negb ((half_up b <=? n) && (n <=? b))
  | _ => false
  end.

(** Whether the slot holds a subscription, and whether the debug flag
    [gotOnSubscribe_] is set, as numbers. *)
Definition present (o : Base) : Z :=
  if is_some (subscription_ (super o)) then 1 else 0.

Definition subscribed (o : Base) : Z := Z.b2z (gotOnSubscribe_ (super o)).

(** *** Properties of foreign code *)

(** No foreign code throws, at any depth. *)
Fixpoint nothrow (k : script T) : bool :=
  match k with
  | Return => true
  | Throw _ => false
  | Do c k' => nothrow_call c && nothrow k'
  | Try c k' => nothrow_call c && nothrow k'
  end
with nothrow_call (c : call T) : bool :=
  match c with
  | Call _ env => forallb (fun x => nothrow (env x)) exts
  end.

(** Every call, at any depth, satisfies [p]. *)
Fixpoint every (p : op T -> (ext -> script T) -> bool) (k : script T) : bool :=
  match k with
  | Return => true
  | Throw _ => true
  | Do c k' => every_call p c && every p k'
  | Try c k' => every_call p c && every p k'
  end
with every_call (p : op T -> (ext -> script T) -> bool) (c : call T) : bool :=
  match c with
  | Call o env => p o env && forallb (fun x => every p (env x)) exts
  end.

(** The [next_] callable never throws: nothing that it runs contains a
    [throw] that could leave it. *)
Definition next_returns : script T -> bool :=
  every (fun _ env => nothrow (env NextCb)).

(** The calls that are neither [onSubscribe] nor [request]. *)
Definition is_signal (o : op T) : bool :=
  match o with
  | OnSubscribe _ | Request _ => false
  | _ => true
  end.

Definition signals_only : script T -> bool :=
  every (fun o _ => is_signal o).

(** A run driven by a producer: one [onSubscribe], and from then on (also
    from inside the foreign code) only signals and [cancel]; [request] is
    left to the adapter. *)
Definition producer_run (k : script T) : bool :=
  match k with
  | Do (Call (OnSubscribe _) env) k' =>
      forallb (fun x => signals_only (env x)) exts && signals_only k'
  | _ => false
  end.

(** The producer delivers the values of [vs] one after the other, then
    goes on as [k]. *)
Fixpoint deliver (vs : list T) (k : script T) : script T :=
  match vs with
  | [] => k
  | v :: vs' => Do (Call (OnNext v) quiet) (deliver vs' k)
  end.

(** A producer that subscribes [s], delivers [vs] and completes, with
    foreign code that returns at once. *)
Definition finite_stream (s : Subscription) (vs : list T) : script T :=
  Do (Call (OnSubscribe (Some s)) quiet)
     (deliver vs (Do (Call OnComplete quiet) Return)).

(** *** Invariants of a stretch of execution *)

(** A terminal dispatch takes a stored subscription out of the slot, except
    the [onErrorImpl] that the handler of [Base::onNextImpl] calls itself;
    the producer's [cancel] always takes one; [onTerminateImpl] follows a
    terminal dispatch. *)
Definition slot_balance (o : Base) (tr : list (event T)) (o' : Base) : Prop :=
  count is_terminal_dispatch tr + present o'
    <= count is_onSubscribeImpl tr + count is_next_caught tr + present o
  /\ count is_producer_cancel tr + present o'
    <= count is_onSubscribeImpl tr + present o
  /\ count is_onTerminateImpl tr <= count is_terminal_dispatch tr
  /\ count is_producer_cancel tr + count is_onCompleteImpl tr
    <= count is_terminal_dispatch tr.

Definition balanced (m : M T Base unit) : Prop :=
  forall o, match m o with (_, o', tr) => slot_balance o tr o' end.

(** Nothing is raised, nothing is caught, and a call that returns has
    entered [onTerminateImpl] once for each terminal dispatch. *)
Definition clean_result (r : outcome unit) (tr : list (event T)) : Prop :=
  (forall x, r <> Raised x)
  /\ count is_next_caught tr = 0
  /\ (r = Done tt -> count is_onTerminateImpl tr = count is_terminal_dispatch tr).

Definition clean (m : M T Base unit) : Prop :=
  forall o, match m o with (r, _, tr) => clean_result r tr end.

(** In a debug build [gotOnSubscribe_] is set whenever the slot is full, is
    never reset, and is set once a terminal dispatch has happened. *)
Definition flag_follows (o : Base) (tr : list (event T)) (o' : Base) : Prop :=
  present o <= subscribed o ->
  present o' <= subscribed o'
  /\ subscribed o <= subscribed o'
  /\ (1 <= count is_terminal_dispatch tr -> subscribed o' = 1).

Definition flagged (m : M T Base unit) : Prop :=
  forall o, match m o with (_, o', tr) => flag_follows o tr o' end.

(** With the slot empty and no subscription stored, no [onNextImpl] is
    entered and the slot stays empty. *)
Definition stays_idle (o : Base) (tr : list (event T)) (o' : Base) : Prop :=
  count is_onSubscribeImpl tr + present o = 0 ->
  count is_onNextImpl tr = 0 /\ present o' = 0.

Definition idle (m : M T Base unit) : Prop :=
  forall o, match m o with (_, o', tr) => stays_idle o tr o' end.

(** The credit window of an adapter made with batch size [b]. *)
Definition window (b : Z) (o : Base) : Prop :=
  batch_ o = b /\ b ÷ 2 <= pending_ o <= b.

(** What a stretch of execution does to the credit: [pending_] moves by
    what was granted less what was delivered and stays in the window; and
    if the producer, holding all of [pending_] but [d] as credit, stays
    compliant, every grant is within bounds and [pending_] stays at or
    above [d]. *)
Definition credit_result (b : Z) (o : Base) (r : outcome unit) (o' : Base)
    (tr : list (event T)) : Prop :=
  (r <> Aborted ->
   window b o' /\
   granted tr - count is_onNextImpl tr = pending_ o' - pending_ o)
  /\ (forall d, 0 <= d <= pending_ o ->
        compliant (pending_ o - d) tr = true ->
        count (out_of_bounds b) tr = 0 /\ (r <> Aborted -> d <= pending_ o')).

Definition credit_ok (b : Z) (m : M T Base unit) : Prop :=
  forall o, window b o ->
    match m o with (r, o', tr) => credit_result b o r o' tr end.

(** No exception leaves [m]. *)
Definition returns (m : M T Base unit) : Prop :=
  forall o x, fst (fst (m o)) <> Raised x.

End Observations.

Definition is_adapter (cls : derived) : bool :=
  match cls with Custom => false | _ => true end.

Arguments trace_of {T S A} x.
Arguments total {T} w tr.
Arguments count {T} p tr.
Arguments is_terminal_dispatch {T} e.
Arguments is_onTerminateImpl {T} e.
Arguments is_onCompleteImpl {T} e.
Arguments is_onNextImpl {T} e.
Arguments is_onSubscribeImpl {T} e.
Arguments is_producer_cancel {T} e.
Arguments is_next_caught {T} e.
Arguments is_error_callback {T} e.
Arguments is_complete_callback {T} e.
Arguments granted {T} tr.
Arguments grants {T} tr.
Arguments received {T} tr.
Arguments compliant {T} c tr.
Arguments out_of_bounds {T} b e.
Arguments nothrow {T} k.
Arguments nothrow_call {T} c.
Arguments every {T} p k.
Arguments every_call {T} p c.
Arguments next_returns {T} k.
Arguments is_signal {T} o.
Arguments signals_only {T} k.
Arguments producer_run {T} k.
Arguments deliver {T} vs k.
Arguments finite_stream {T} s vs.
Arguments slot_balance {T} o tr o'.
Arguments balanced {T} m.
Arguments clean_result {T} r tr.
Arguments clean {T} m.
Arguments flag_follows {T} o tr o'.
Arguments flagged {T} m.
Arguments stays_idle {T} o tr o'.
Arguments idle {T} m.
Arguments window b o : assert.
Arguments credit_result {T} b o r o' tr.
Arguments credit_ok {T} b m.
Arguments returns {T} m.

(** *** The runs of the scenarios *)

Open Scope string_scope.

(** A [next_] that throws a [std::runtime_error("boom")], with everything
    else returning at once. *)
Definition next_throws_std : ext -> script Z :=
  fun x => match x with
           | NextCb => Throw (StdException "boom")
           | _ => Return
           end.

(** A [next_] that throws an [int]. *)
Definition next_throws_int : ext -> script Z :=
  fun x => match x with
           | NextCb => Throw (OtherThrown 42)
           | _ => Return
           end.

(** A [complete_] that throws a [std::runtime_error("boom")]. *)
Definition complete_throws_std : ext -> script Z :=
  fun x => match x with
           | CompleteCb => Throw (StdException "boom")
           | _ => Return
           end.

(** Subscribe, then deliver one value to a [next_] that behaves as [env]. *)
Definition one_value (env : ext -> script Z) : script Z :=
  Do (Call (OnSubscribe (Some 7%nat)) quiet)
     (Do (Call (OnNext 1) env) Return).

(** Subscribe, then complete into a [complete_] that throws. *)
Definition complete_into_throw : script Z :=
  Do (Call (OnSubscribe (Some 7%nat)) quiet)
     (Do (Call OnComplete complete_throws_std) Return).

(** Subscribe, cancel, then a late [onComplete] from the producer. *)
Definition cancel_then_complete : script Z :=
  Do (Call (OnSubscribe (Some 7%nat)) quiet)
     (Do (Call Cancel quiet)
         (Do (Call OnComplete quiet) Return)).

Close Scope string_scope.

(** ** Further observations *)

Section MoreObservations.

Variable T : Type.

Definition is_request (e : event T) : bool :=
  match e with EvRequest _ => true | _ => false end.

(** Anything but the entry of [request]: a hook is entered, the producer or
    a callable of the user is called, a line is logged. *)
Definition is_dispatch (e : event T) : bool := negb (is_request e).

(** A call that reaches the producer's subscription. *)
Definition is_producer_call (e : event T) : bool :=
  match e with
  | EvSubRequest _ _ | EvSubCancel _ => true
  | _ => false
  end.

(** The debug flag [gotTerminating_], as a number. *)
Definition terminating (o : Base) : Z := Z.b2z (gotTerminating_ (super o)).

(** [onComplete] and [onError]. *)
Definition is_terminal_signal (o : op T) : bool :=
  match o with
  | OnComplete | OnError _ => true
  | _ => false
  end.

(** The foreign code never calls [onSubscribe], at any depth. *)
Definition no_subscribe : script T -> bool :=
  every (fun o _ => match o with OnSubscribe _ => false | _ => true end).

(** With the slot empty and no subscription stored, nothing is entered or
    called, the slot stays empty and [pending_] is not touched. *)
Definition stays_dormant (o : Base) (tr : list (event T)) (o' : Base) : Prop :=
  count is_onSubscribeImpl tr + present o = 0 ->
  count is_dispatch tr = 0 /\ present o' = 0 /\ pending_ o' = pending_ o.

Definition dormant (m : M T Base unit) : Prop :=
  forall o, match m o with (_, o', tr) => stays_dormant o tr o' end.

(** Each [onTerminateImpl], and each of [onCompleteImpl] and the producer's
    [cancel], takes a stored subscription out of the slot; the complete
    callback is called from [onCompleteImpl] only. *)
Definition claims_slot (o : Base) (tr : list (event T)) (o' : Base) : Prop :=
  count is_onTerminateImpl tr + present o'
    <= count is_onSubscribeImpl tr + present o
  /\ count is_onCompleteImpl tr + count is_producer_cancel tr + present o'
    <= count is_onSubscribeImpl tr + present o
  /\ count is_complete_callback tr <= count is_onCompleteImpl tr.

Definition claiming (m : M T Base unit) : Prop :=
  forall o, match m o with (_, o', tr) => claims_slot o tr o' end.

(** In a debug build each stored subscription sets [gotOnSubscribe_], which
    was clear, and neither flag is ever cleared. *)
Definition latches (o : Base) (tr : list (event T)) (o' : Base) : Prop :=
  count is_onSubscribeImpl tr + subscribed o <= subscribed o'
  /\ terminating o <= terminating o'.

Definition latched (m : M T Base unit) : Prop :=
  forall o, match m o with (_, o', tr) => latches o tr o' end.

(** [m] never aborts the process. *)
Definition never_aborts {S} (m : M T S unit) : Prop :=
  forall o, fst (fst (m o)) <> Aborted.

(** What [Base::onNextImpl] asks for when it refills an adapter with batch
    size [b]: one more than the upper half of the batch. *)
Definition least_refill (b : Z) : Z := b - b ÷ 2 + 1.

(** A call of [request] for anything else. *)
Definition odd_refill (b : Z) (e : event T) : bool :=
  match e with
  | EvRequest n => negb (n =? least_refill b)
  | _ => false
  end.

(** Within the window, every call of [request] asks for [least_refill b]. *)
Definition refills_evenly (b : Z) (m : M T Base unit) : Prop :=
  forall o, window b o ->
    match m o with (_, _, tr) => count (odd_refill b) tr = 0 end.

(** The callables handed to the factories, as against the producer's
    subscription and the hooks of a subclass. *)
Definition is_callback (x : ext) : bool :=
  match x with
  | NextCb | ErrorCb | CompleteCb => true
  | _ => false
  end.

(** A piece of foreign code that does not throw on its own account, and one
    that throws nothing but a [std::exception]. *)
Fixpoint spine_returns (k : script T) : bool :=
  match k with
  | Return => true
  | Throw _ => false
  | Do _ k' | Try _ k' => spine_returns k'
  end.

Fixpoint ends_std (k : script T) : bool :=
  match k with
  | Return => true
  | Throw (StdException _) => true
  | Throw _ => false
  | Do _ k' | Try _ k' => ends_std k'
  end.

(** At every call, at any depth: the producer's [request] and [cancel]
    do not throw and the callables throw nothing but [std::exception]. *)
Definition contained : script T -> bool :=
  every (fun _ env =>
           spine_returns (env SubRequest) && spine_returns (env SubCancel)
           && ends_std (env NextCb) && ends_std (env ErrorCb)
           && ends_std (env CompleteCb)).

(** No exception leaves [m]; none but a [std::exception] does. *)
Definition never_raises {S} (m : M T S unit) : Prop :=
  forall o x, fst (fst (m o)) <> Raised x.

Definition raises_std {S} (m : M T S unit) : Prop :=
  forall o x, fst (fst (m o)) = Raised x -> exists exn, x = StdException exn.

(** While no subscription is stored the slot does not fill, and once
    [onCompleteImpl], [onErrorImpl] or the producer's [cancel] has been
    entered it is empty. *)
Definition lets_go (o : Base) (tr : list (event T)) (o' : Base) : Prop :=
  count is_onSubscribeImpl tr = 0 ->
  present o' <= present o
  /\ (0 < count is_terminal_dispatch tr -> present o' = 0).

Definition letting_go (m : M T Base unit) : Prop :=
  forall o, match m o with (_, o', tr) => lets_go o tr o' end.

(** No call of [onSubscribe], at any depth, hands over a null pointer. *)
Definition no_null_subscribe : script T -> bool :=
  every (fun o _ => match o with OnSubscribe None => false | _ => true end).

(** The credit that has reached the producer: the arguments of the calls
    of its [request]; and what a call of [request] on the adapter adds to
    the credit that has been asked for but has not reached it. *)
Definition forwarded : list (event T) -> Z :=
  total (fun e => match e with EvSubRequest _ n => n | _ => 0 end).

Definition held_back (e : event T) : Z :=
  match e with
  | EvRequest n => n
  | EvSubRequest _ n => - n
  | _ => 0
  end.

(** Within the window, the producer is asked for no more than [request]
    was called with. *)
Definition forwards_within (b : Z) (m : M T Base unit) : Prop :=
  forall o, window b o ->
    match m o with (_, _, tr) => 0 <= total held_back tr end.

(** [m] keeps the relation [R] between the state it starts in, what it
    does and the state it ends in. *)
Definition preserves (R : Base -> list (event T) -> Base -> Prop)
    (m : M T Base unit) : Prop :=
  forall o, match m o with (_, o', tr) => R o tr o' end.

(** The only thing a trace holds is [request(k)] on some subscription. *)
Definition only_requests (k : Z) (tr : list (event T)) : Prop :=
  Forall (fun e => exists s, e = EvSubRequest s k) tr.

(** A method of the null subscriber asks for [k] and does nothing else; it
    does not abort when [ok], and returns when [ok] and [quiet]. *)
Definition null_ok (k : Z) (ok quiet : bool) (m : M T unit unit) : Prop :=
  forall u,
    match m u with
    | (r, _, tr) =>
        only_requests k tr
        /\ (ok = true -> r <> Aborted)
        /\ (ok = true -> quiet = true -> r = Done tt)
    end.

End MoreObservations.

Arguments is_request {T} e.
Arguments is_dispatch {T} e.
Arguments is_producer_call {T} e.
Arguments is_terminal_signal {T} o.
Arguments no_subscribe {T} k.
Arguments stays_dormant {T} o tr o'.
Arguments dormant {T} m.
Arguments claims_slot {T} o tr o'.
Arguments claiming {T} m.
Arguments latches {T} o tr o'.
Arguments latched {T} m.
Arguments never_aborts {T S} m.
Arguments odd_refill {T} b e.
Arguments refills_evenly {T} b m.
Arguments spine_returns {T} k.
Arguments ends_std {T} k.
Arguments contained {T} k.
Arguments never_raises {T S} m.
Arguments raises_std {T S} m.
Arguments lets_go {T} o tr o'.
Arguments letting_go {T} m.
Arguments no_null_subscribe {T} k.
Arguments forwarded {T} tr.
Arguments held_back {T} e.
Arguments forwards_within {T} b m.
Arguments preserves {T} R m.
Arguments only_requests {T} k tr.
Arguments null_ok {T} k ok quiet m.

(** Callables that all throw a [std::exception], with a producer whose
    [request] and [cancel] return. *)
Definition callbacks_throw {T} : ext -> script T :=
  fun x => if is_callback x then Throw (StdException "callback"%string)
           else Return.

(** * Properties *)

Scheme script_mut := Induction for script Sort Prop
  with call_mut := Induction for call Sort Prop.

(** ** Arithmetic and counting *)

Lemma INT64_MIN_eq : INT64_MIN = -9223372036854775808.
Proof. reflexivity. Qed.

Lemma INT64_MAX_eq : INT64_MAX = 9223372036854775807.
Proof. reflexivity. Qed.

Lemma wrap64_small (z : Z) : INT64_MIN <= z <= INT64_MAX -> wrap64 z = z.
Proof.
  unfold INT64_MIN, INT64_MAX, wrap64. intros H.
  rewrite Z.mod_small; lia.
Qed.

Lemma half_bounds (b : Z) :
  0 < b -> 0 <= b ÷ 2 /\ 2 * (b ÷ 2) <= b <= 2 * (b ÷ 2) + 1.
Proof.
  intros H. rewrite Z.quot_div_nonneg by lia.
  pose proof (Z.div_mod b 2 ltac:(lia)).
  pose proof (Z.mod_pos_bound b 2 ltac:(lia)). lia.
Qed.

Lemma half_up_bounds (b : Z) :
  0 < b -> 2 * half_up b <= b + 1 <= 2 * half_up b + 1.
Proof.
  intros H. unfold half_up. rewrite Z.quot_div_nonneg by lia.
  pose proof (Z.div_mod (b + 1) 2 ltac:(lia)).
  pose proof (Z.mod_pos_bound (b + 1) 2 ltac:(lia)). lia.
Qed.

Lemma total_app {T} (w : event T -> Z) (a b : list (event T)) :
  total w (a ++ b) = total w a + total w b.
Proof.
  induction a as [|e a IH]; simpl; [reflexivity|].
  rewrite IH. lia.
Qed.

Lemma count_app {T} (p : event T -> bool) (a b : list (event T)) :
  count p (a ++ b) = count p a + count p b.
Proof. apply total_app. Qed.

Lemma count_cons {T} (p : event T -> bool) (e : event T) (tr : list (event T)) :
  count p (e :: tr) = (if p e then 1 else 0) + count p tr.
Proof. reflexivity. Qed.

Lemma count_nil {T} (p : event T -> bool) : count p [] = 0.
Proof. reflexivity. Qed.

Lemma count_nonneg {T} (p : event T -> bool) (tr : list (event T)) :
  0 <= count p tr.
Proof.
  unfold count.
  induction tr as [|e tr IH]; simpl; [lia|].
  destruct (p e); lia.
Qed.

Lemma granted_app {T} (a b : list (event T)) :
  granted (a ++ b) = granted a + granted b.
Proof. apply total_app. Qed.

Lemma granted_cons {T} (e : event T) (tr : list (event T)) :
  granted (e :: tr) = match e with EvRequest n => n | _ => 0 end + granted tr.
Proof. reflexivity. Qed.

Lemma granted_nil (T : Type) : granted (@nil (event T)) = 0.
Proof. reflexivity. Qed.

Lemma compliant_app {T} (a b : list (event T)) (c : Z) :
  compliant c (a ++ b) =
  compliant c a && compliant (c + granted a - count is_onNextImpl a) b.
Proof.
  assert (Hc : forall c1 c2 (tr : list (event T)),
             c1 = c2 -> compliant c1 tr = compliant c2 tr)
    by (intros; subst; reflexivity).
  revert c. induction a as [|e a IH]; intros c.
  - cbn [app compliant andb]. apply Hc. rewrite granted_nil, count_nil. lia.
  - cbn [app]. rewrite granted_cons, count_cons.
    destruct e; cbn [compliant is_onNextImpl]; rewrite IH, <- ?andb_assoc;
      first [ apply Hc; lia
            | f_equal; first [ apply Hc; lia | f_equal; apply Hc; lia ] ].
Qed.

Lemma count_in_bounds {T} (b n : Z) (tr : list (event T)) :
  half_up b <= n <= b ->
  count (out_of_bounds b) (EvRequest n :: tr) = count (out_of_bounds b) tr.
Proof.
  intros [H1 H2]. rewrite count_cons. cbn [out_of_bounds].
  apply Z.leb_le in H1, H2. rewrite H1, H2. reflexivity.
Qed.

Lemma grants_in_bounds {T} (b : Z) (tr : list (event T)) :
  count (out_of_bounds b) tr = 0 ->
  Forall (fun n => half_up b <= n <= b) (grants tr).
Proof.
  induction tr as [|e tr IH]; intros H; [constructor|].
  rewrite count_cons in H. pose proof (count_nonneg (out_of_bounds b) tr).
  destruct e; cbn [out_of_bounds grants] in *; try (apply IH; lia).
  destruct (half_up b <=? n) eqn:E1; destruct (n <=? b) eqn:E2;
    cbn [andb negb] in H; try lia.
  constructor; [|apply IH; lia].
  apply Z.leb_le in E1, E2. lia.
Qed.

Lemma forallb_exts (f : ext -> bool) :
  forallb f exts = true -> forall x, f x = true.
Proof.
  intros H x. rewrite forallb_forall in H. apply H.
  destruct x; simpl; tauto.
Qed.

(** ** Symbolic execution of the methods *)

Ltac unfold_monad :=
  cbv [bind ret emit gets modify throw abort catch_std swallow CHECK].

Ltac unfold_methods :=
  cbv [BaseSubscriber_dispatch onSubscribe onNext onComplete onError cancel
       request onSubscribeImpl onNextImpl onCompleteImpl onErrorImpl
       onTerminateImpl Base_onSubscribeImpl Base_onNextImpl
       WithError_onErrorImpl WithErrorAndComplete_onCompleteImpl
       ifndef_NDEBUG atomic_load atomic_store atomic_exchange
       gotOnSubscribe_exchange gotTerminating_exchange].

Ltac fields :=
  cbn [fst snd app super subscription_ set_subscription_ set_pending_
       set_gotOnSubscribe_ set_gotTerminating_ is_some negb
       gotOnSubscribe_ gotTerminating_ batch_ pending_] in *.

(** Follow the control flow of an unfolded method: at each call of the
    foreign code take the fact [Hf] known of it, split on how the call
    ended and hand the fact to [post]; split on each test. *)
Ltac crank_with foreign Hf post :=
  repeat (fields;
   match goal with
   | |- context [foreign ?x ?s] =>
       let H := fresh "Hf" in
       pose proof (Hf x s) as H;
       let r := fresh "r" in
       let o := fresh "o" in
       let tr := fresh "tr" in
       destruct (foreign x s) as [[r o] tr]; destruct r as [[]|[?|?|?]|];
       post H
   | |- context [is_some ?b] => destruct b eqn:?
   | |- context [match ?b with true => _ | false => _ end] => destruct b eqn:?
   | |- context [match ?b with Some _ => _ | None => _ end] => destruct b eqn:?
   end).

Ltac crank foreign Hf := crank_with foreign Hf ltac:(fun _ => idtac).

Ltac count_events :=
  repeat (rewrite ?count_app, ?count_cons, ?count_nil;
          cbn [is_terminal_dispatch is_onTerminateImpl is_onCompleteImpl
               is_onNextImpl is_onSubscribeImpl is_producer_cancel
               is_next_caught is_error_callback is_complete_callback]).

Ltac split_flags :=
  repeat match goal with
         | H : subscription_ _ = _ |- _ => rewrite H in *; clear H
         | H : gotOnSubscribe_ _ = _ |- _ => rewrite H in *; clear H
         end;
  fields;
  repeat match goal with
         | |- context [subscription_ (super ?o)] =>
             destruct (subscription_ (super o))
         | H : context [subscription_ (super ?o)] |- _ =>
             destruct (subscription_ (super o))
         | |- context [gotOnSubscribe_ (super ?o)] =>
             destruct (gotOnSubscribe_ (super o))
         | H : context [gotOnSubscribe_ (super ?o)] |- _ =>
             destruct (gotOnSubscribe_ (super o))
         end;
  fields; cbn [Z.b2z] in *.

Ltac tally :=
  unfold present, subscribed in *; fields; split_flags; count_events;
  repeat match goal with
         | |- context [count ?p ?tr] =>
             lazymatch goal with
             | _ : 0 <= count p tr |- _ => fail
             | _ => pose proof (count_nonneg p tr)
             end
         end;
  try lia.

(** ** The slot accounts for every terminal dispatch *)

Section SlotAccounting.

Variable T : Type.

Lemma dispatch_balanced NDEBUG cls foreign (o : op T) :
  (forall x, balanced (foreign x)) ->
  balanced (BaseSubscriber_dispatch T NDEBUG cls foreign o).
Proof.
  intros Hf s. unfold balanced, slot_balance in *.
  destruct o; unfold_methods; unfold_monad; destruct cls; destruct NDEBUG.
  all: crank foreign Hf.
  all: tally.
Qed.

Lemma balanced_bind (m k : M T Base unit) :
  balanced m -> balanced k -> balanced (m ;; k).
Proof.
  intros Hm Hk o. unfold bind.
  specialize (Hm o). destruct (m o) as [[[[]|x|] o1] tr1]; try exact Hm.
  specialize (Hk o1). destruct (k o1) as [[r o2] tr2].
  unfold slot_balance in *. count_events. lia.
Qed.

Lemma balanced_swallow (m : M T Base unit) : balanced m -> balanced (swallow m).
Proof.
  intros Hm o. unfold swallow. specialize (Hm o).
  destruct (m o) as [[[[]|x|] o1] tr1]; exact Hm.
Qed.

Lemma balanced_pure (r : outcome unit) : balanced (fun o => (r, o, @nil (event T))).
Proof. intros o. unfold slot_balance. count_events. lia. Qed.

Lemma run_balanced NDEBUG cls (k : script T) : balanced (run NDEBUG cls k).
Proof.
  unfold run.
  induction k using script_mut
    with (P0 := fun c =>
            balanced (run_call T Base (BaseSubscriber_dispatch T NDEBUG cls) c));
    cbn [run_script run_call].
  - apply balanced_pure.
  - apply balanced_pure.
  - apply balanced_bind; assumption.
  - apply balanced_bind; [apply balanced_swallow|]; assumption.
  - apply dispatch_balanced. assumption.
Qed.

End SlotAccounting.

(** ** When no foreign code throws *)

Section NoThrow.

Variable T : Type.

Ltac use_clean H :=
  let Hr := fresh "Hr" in
  let Hc := fresh "Hc" in
  let Hd := fresh "Hd" in
  destruct H as (Hr & Hc & Hd);
  try (exfalso; exact (Hr _ eq_refl));
  try specialize (Hd eq_refl); clear Hr.

Lemma dispatch_clean NDEBUG cls foreign (o : op T) :
  (forall x, clean (foreign x)) ->
  clean (BaseSubscriber_dispatch T NDEBUG cls foreign o).
Proof.
  intros Hf s. unfold clean, clean_result in *.
  destruct o; unfold_methods; unfold_monad; destruct cls; destruct NDEBUG.
  all: crank_with foreign Hf ltac:(fun H => use_clean H).
  all: split; [intros x; discriminate|split; [|intros E; try discriminate E]].
  all: count_events; lia.
Qed.

Lemma clean_bind (m k : M T Base unit) : clean m -> clean k -> clean (m ;; k).
Proof.
  intros Hm Hk o. unfold bind.
  specialize (Hm o). destruct (m o) as [[[[]|x|] o1] tr1]; try exact Hm.
  specialize (Hk o1). destruct (k o1) as [[r o2] tr2].
  destruct Hm as (_ & Hc1 & Hd1), Hk as (Hr2 & Hc2 & Hd2).
  specialize (Hd1 eq_refl).
  split; [exact Hr2|]. split; [count_events; lia|].
  intros E. specialize (Hd2 E). count_events. lia.
Qed.

Lemma clean_swallow (m : M T Base unit) : clean m -> clean (swallow m).
Proof.
  intros Hm o. unfold swallow. specialize (Hm o).
  destruct (m o) as [[[[]|x|] o1] tr1]; try exact Hm.
  destruct Hm as (Hr & _). exfalso. exact (Hr x eq_refl).
Qed.

Lemma nothrow_clean NDEBUG cls (k : script T) :
  nothrow k = true -> clean (run NDEBUG cls k).
Proof.
  unfold run.
  induction k using script_mut
    with (P0 := fun c =>
            nothrow_call c = true ->
            clean (run_call T Base (BaseSubscriber_dispatch T NDEBUG cls) c));
    cbn [run_script run_call nothrow nothrow_call]; intros Hk.
  - intros o. unfold ret, clean_result.
    split; [intros x; discriminate|split; [reflexivity|intros _; reflexivity]].
  - discriminate.
  - apply andb_prop in Hk. destruct Hk. apply clean_bind; auto.
  - apply andb_prop in Hk. destruct Hk.
    apply clean_bind; [apply clean_swallow|]; auto.
  - apply dispatch_clean. intros x. apply H.
    apply (forallb_exts (fun x => nothrow (env x))). exact Hk.
Qed.

Lemma nothrow_returns NDEBUG cls (k : script T) :
  nothrow k = true -> returns (run NDEBUG cls k).
Proof.
  intros Hk o x. pose proof (nothrow_clean NDEBUG cls k Hk o) as H.
  destruct (run NDEBUG cls k o) as [[r o'] tr]. destruct H as (Hr & _).
  exact (Hr x).
Qed.

End NoThrow.

(** ** The debug flag follows the slot *)

Section Subscribed.

Variable T : Type.

Lemma subscribed_le_1 (o : Base) : subscribed o <= 1.
Proof. unfold subscribed. destruct (gotOnSubscribe_ (super o)); simpl; lia. Qed.

Lemma dispatch_flagged cls foreign (o : op T) :
  (forall x, flagged (foreign x)) ->
  flagged (BaseSubscriber_dispatch T false cls foreign o).
Proof.
  intros Hf s. unfold flagged, flag_follows in *.
  destruct o; unfold_methods; unfold_monad; destruct cls.
  all: crank foreign Hf.
  all: tally.
Qed.

Lemma flagged_bind (m k : M T Base unit) :
  flagged m -> flagged k -> flagged (m ;; k).
Proof.
  intros Hm Hk o. unfold bind.
  specialize (Hm o). destruct (m o) as [[[[]|x|] o1] tr1]; try exact Hm.
  specialize (Hk o1). destruct (k o1) as [[r o2] tr2].
  unfold flag_follows in *. count_events.
  pose proof (count_nonneg is_terminal_dispatch tr1).
  pose proof (count_nonneg is_terminal_dispatch tr2).
  pose proof (subscribed_le_1 o2).
  lia.
Qed.

Lemma flagged_swallow (m : M T Base unit) : flagged m -> flagged (swallow m).
Proof.
  intros Hm o. unfold swallow. specialize (Hm o).
  destruct (m o) as [[[[]|x|] o1] tr1]; exact Hm.
Qed.

Lemma flagged_pure (r : outcome unit) : flagged (fun o => (r, o, @nil (event T))).
Proof. intros o. unfold flag_follows. count_events. lia. Qed.

Lemma run_flagged cls (k : script T) : flagged (run false cls k).
Proof.
  unfold run.
  induction k using script_mut
    with (P0 := fun c =>
            flagged (run_call T Base (BaseSubscriber_dispatch T false cls) c));
    cbn [run_script run_call].
  - apply flagged_pure.
  - apply flagged_pure.
  - apply flagged_bind; assumption.
  - apply flagged_bind; [apply flagged_swallow|]; assumption.
  - apply dispatch_flagged. assumption.
Qed.

End Subscribed.

(** ** With the slot empty nothing is delivered *)

Section Idle.

Variable T : Type.

Lemma dispatch_idle NDEBUG cls foreign (o : op T) :
  (forall x, idle (foreign x)) ->
  idle (BaseSubscriber_dispatch T NDEBUG cls foreign o).
Proof.
  intros Hf s. unfold idle, stays_idle in *.
  destruct o; unfold_methods; unfold_monad; destruct cls; destruct NDEBUG.
  all: crank foreign Hf.
  all: tally.
Qed.

Lemma idle_bind (m k : M T Base unit) : idle m -> idle k -> idle (m ;; k).
Proof.
  intros Hm Hk o. unfold bind.
  specialize (Hm o). destruct (m o) as [[[[]|x|] o1] tr1]; try exact Hm.
  specialize (Hk o1). destruct (k o1) as [[r o2] tr2].
  unfold stays_idle in *. count_events.
  pose proof (count_nonneg is_onSubscribeImpl tr1).
  pose proof (count_nonneg is_onSubscribeImpl tr2).
  assert (0 <= present o /\ 0 <= present o1)
    by (unfold present; destruct (is_some (subscription_ (super o)));
        destruct (is_some (subscription_ (super o1))); lia).
  lia.
Qed.

Lemma idle_swallow (m : M T Base unit) : idle m -> idle (swallow m).
Proof.
  intros Hm o. unfold swallow. specialize (Hm o).
  destruct (m o) as [[[[]|x|] o1] tr1]; exact Hm.
Qed.

Lemma idle_pure (r : outcome unit) : idle (fun o => (r, o, @nil (event T))).
Proof. intros o. unfold stays_idle. count_events. lia. Qed.

Lemma run_idle NDEBUG cls (k : script T) : idle (run NDEBUG cls k).
Proof.
  unfold run.
  induction k using script_mut
    with (P0 := fun c =>
            idle (run_call T Base (BaseSubscriber_dispatch T NDEBUG cls) c));
    cbn [run_script run_call].
  - apply idle_pure.
  - apply idle_pure.
  - apply idle_bind; assumption.
  - apply idle_bind; [apply idle_swallow|]; assumption.
  - apply dispatch_idle. assumption.
Qed.

End Idle.

(** ** Credit *)

Ltac unwrap :=
  pose proof INT64_MIN_eq; pose proof INT64_MAX_eq;
  repeat match goal with
         | |- context [wrap64 ?z] =>
             rewrite (wrap64_small z) by lia
         | H : context [wrap64 ?z] |- _ =>
             rewrite (wrap64_small z) in H by lia
         end.

Ltac tests :=
  repeat match goal with
         | H : (_ <? _) = true |- _ => apply Z.ltb_lt in H
         | H : (_ <? _) = false |- _ => apply Z.ltb_ge in H
         end.

(** Bring the facts on the window into the shape [lia] reads. *)
Ltac prepare :=
  fields; tests;
  repeat match goal with
         | H : _ /\ _ |- _ => destruct H
         end;
  repeat match goal with
         | H : batch_ ?o = _ |- _ => rewrite H in *
         end;
  match goal with
  | H : 0 < ?b |- _ =>
      pose proof (half_bounds b H); pose proof (half_up_bounds b H)
  end;
  unwrap.

Lemma delivered_app (T : Type) (a b : list (event T)) :
  count is_onNextImpl (a ++ b) = count is_onNextImpl a + count is_onNextImpl b.
Proof. apply count_app. Qed.

Lemma delivered_cons (T : Type) (e : event T) (tr : list (event T)) :
  count is_onNextImpl (e :: tr) =
  (if is_onNextImpl e then 1 else 0) + count is_onNextImpl tr.
Proof. reflexivity. Qed.

Lemma delivered_nil (T : Type) : count is_onNextImpl (@nil (event T)) = 0.
Proof. reflexivity. Qed.

Ltac count_credit :=
  repeat (rewrite ?granted_app, ?granted_cons, ?granted_nil in *;
          cbv beta iota in *);
  repeat (rewrite ?delivered_app, ?delivered_cons, ?delivered_nil in *;
          cbn [is_onNextImpl] in *).

Ltac credit_arith := prepare; count_credit; try lia.

(** Use what is known of each stretch of foreign code [tr] for which the
    producer is known to stay compliant. *)
Ltac use_compliance :=
  repeat match goal with
         | Hc : compliant ?c ?tr = true,
           Hg : forall d, 0 <= d <= ?p -> compliant (?p - d) ?tr = true -> _
           |- _ =>
             let E := fresh "E" in
             assert (E : c = p - (p - c)) by lia;
             rewrite E in Hc;
             specialize (Hg (p - c) ltac:(lia) Hc);
             clear E Hc;
             let G := fresh "G" in
             destruct Hg as [Hg G];
             first [ specialize (G ltac:(discriminate)) | clear G ]
         end.

Ltac count_grants :=
  rewrite ?count_app;
  repeat first [ rewrite count_in_bounds by lia
               | rewrite count_cons; cbn [out_of_bounds]
               | rewrite count_app ];
  rewrite ?count_nil.

Ltac compliance :=
  let d := fresh "d" in
  let Hd := fresh "Hd" in
  let Hc := fresh "Hc" in
  intros d Hd Hc;
  rewrite ?app_nil_r in *;
  prepare;
  repeat (cbn [compliant app] in Hc; rewrite ?compliant_app in Hc);
  rewrite ?andb_true_iff in Hc;
  repeat match goal with
         | H : _ /\ _ |- _ => destruct H
         end;
  tests; count_credit; use_compliance;
  split;
  [ count_grants; try lia
  | try (intros _; lia); try (intros Hr; exfalso; apply Hr; reflexivity) ].

Section Credit.

Variable T : Type.
Variable b : Z.
Hypothesis b_pos : 0 < b.
Hypothesis b_max : b <= INT64_MAX.

(** The state that a call of the foreign code starts in is in the window;
    keep what the call is known to do to the credit. *)
Ltac use_credit H :=
  match type of H with
  | ?P -> _ =>
      let W := fresh "W" in
      assert (W : P) by (split; credit_arith);
      specialize (H W); clear W
  end;
  let A := fresh "A" in
  let B := fresh "B" in
  destruct H as [A B];
  first [ specialize (A ltac:(discriminate)) | clear A ].

(** The same where [next_] is known not to throw. *)
Ltac use_credit_returning H :=
  let Hret := fresh "Hret" in
  destruct H as [Hret H];
  try (exfalso; exact (Hret eq_refl _ eq_refl));
  clear Hret;
  use_credit H.

Lemma dispatch_credit_ok NDEBUG cls foreign (o : op T) :
  is_adapter cls = true -> is_signal o = true ->
  returns (foreign NextCb) ->
  (forall x, credit_ok b (foreign x)) ->
  credit_ok b (BaseSubscriber_dispatch T NDEBUG cls foreign o).
Proof.
  intros Ha Hs Hn Hf.
  assert (Hf' : forall x o,
             match foreign x o with
             | (r, o', tr) =>
                 (x = NextCb -> forall y, r <> Raised y)
                 /\ (window b o -> credit_result b o r o' tr)
             end).
  { intros x o'. specialize (Hf x o'). specialize (Hn o').
    destruct (foreign x o') as [[r o''] tr] eqn:E. split; [|exact Hf].
    intros -> y. specialize (Hn y). rewrite E in Hn. exact Hn. }
  clear Hf Hn.
  intros s Hw. unfold credit_result, window in *.
  destruct o; try discriminate Hs; destruct cls; try discriminate Ha;
    unfold_methods; unfold_monad; destruct NDEBUG.
  all: crank_with foreign Hf' ltac:(fun H => use_credit_returning H).
  all: split;
    [intros Hr; try (exfalso; apply Hr; reflexivity); credit_arith|].
  all: compliance.
Qed.

Lemma onSubscribe_credit_ok NDEBUG cls foreign (sub : option Subscription) :
  is_adapter cls = true ->
  (forall x, credit_ok b (foreign x)) ->
  forall o, batch_ o = b -> pending_ o = 0 ->
    match onSubscribe T NDEBUG cls foreign sub o with
    | (r, o', tr) => credit_result b o r o' tr
    end.
Proof.
  intros Ha Hf s Hb Hp. unfold credit_ok, credit_result, window in *.
  destruct cls; try discriminate Ha;
    unfold_methods; unfold_monad; destruct NDEBUG.
  all: crank_with foreign Hf ltac:(fun H => use_credit H).
  all: split;
    [intros Hr; try (exfalso; apply Hr; reflexivity); credit_arith|].
  all: compliance.
Qed.

Lemma credit_ok_bind (m k : M T Base unit) :
  credit_ok b m -> credit_ok b k -> credit_ok b (m ;; k).
Proof.
  intros Hm Hk o Hw. unfold bind.
  specialize (Hm o Hw). destruct (m o) as [[[[]|x|] o1] tr1]; try exact Hm.
  destruct Hm as [A1 B1]. specialize (A1 ltac:(discriminate)).
  destruct A1 as [W1 E1].
  specialize (Hk o1 W1). destruct (k o1) as [[r o2] tr2].
  destruct Hk as [A2 B2]. split.
  - intros Hr. specialize (A2 Hr). destruct A2 as [W2 E2].
    split; [exact W2|]. rewrite granted_app, count_app. lia.
  - intros d Hd Hc. rewrite compliant_app in Hc.
    apply andb_true_iff in Hc. destruct Hc as [Hc1 Hc2].
    specialize (B1 d Hd Hc1). destruct B1 as [G1 L1].
    specialize (L1 ltac:(discriminate)).
    replace (pending_ o - d + granted tr1 - count is_onNextImpl tr1)
      with (pending_ o1 - d) in Hc2 by lia.
    destruct W1 as [_ W1]. pose proof (half_bounds b b_pos).
    specialize (B2 d ltac:(lia) Hc2). destruct B2 as [G2 L2].
    split; [rewrite count_app; lia|exact L2].
Qed.

Lemma credit_ok_swallow (m : M T Base unit) :
  credit_ok b m -> credit_ok b (swallow m).
Proof.
  intros Hm o Hw. unfold swallow. specialize (Hm o Hw).
  destruct (m o) as [[[[]|x|] o1] tr1]; try exact Hm.
  destruct Hm as [A B]. split.
  - intros _. apply A. discriminate.
  - intros d Hd Hc. specialize (B d Hd Hc). destruct B as [G L].
    split; [exact G|]. intros _. apply L. discriminate.
Qed.

Lemma credit_ok_pure (r : outcome unit) :
  credit_ok b (fun o => (r, o, @nil (event T))).
Proof.
  intros o Hw. split.
  - intros _. split; [exact Hw|]. rewrite granted_nil, count_nil. lia.
  - intros d Hd _. split; [reflexivity|]. intros _. lia.
Qed.

Lemma run_credit_ok NDEBUG cls (k : script T) :
  is_adapter cls = true ->
  next_returns k = true -> signals_only k = true ->
  credit_ok b (run NDEBUG cls k).
Proof.
  intros Ha. unfold run, next_returns, signals_only.
  induction k using script_mut
    with (P0 := fun c =>
            every_call (fun _ env => nothrow (env NextCb)) c = true ->
            every_call (fun o _ => is_signal o) c = true ->
            credit_ok b (run_call T Base (BaseSubscriber_dispatch T NDEBUG cls) c));
    cbn [run_script run_call every every_call]; intros Hn Hs.
  - apply credit_ok_pure.
  - apply credit_ok_pure.
  - apply andb_prop in Hn, Hs. destruct Hn, Hs. apply credit_ok_bind; auto.
  - apply andb_prop in Hn, Hs. destruct Hn, Hs.
    apply credit_ok_bind; [apply credit_ok_swallow|]; auto.
  - apply andb_prop in Hn, Hs. destruct Hn as [Hn1 Hn2], Hs as [Hs1 Hs2].
    apply dispatch_credit_ok; [exact Ha|exact Hs1| |].
    + apply (nothrow_returns T NDEBUG cls). exact Hn1.
    + intros x. apply H.
      * apply (forallb_exts (fun x => every _ (env x))). exact Hn2.
      * apply (forallb_exts (fun x => every _ (env x))). exact Hs2.
Qed.

(** A run driven by a producer, from the adapter as constructed. *)
Lemma producer_run_credit NDEBUG cls (k : script T) :
  is_adapter cls = true ->
  producer_run k = true -> next_returns k = true ->
  match run NDEBUG cls k (Base_new b) with
  | (r, o', tr) => credit_result b (Base_new b) r o' tr
  end.
Proof.
  intros Ha Hp Hn.
  destruct k as [| |[[sub| | | | |] env] k'|]; try discriminate Hp.
  cbn [producer_run] in Hp. apply andb_prop in Hp. destruct Hp as [Hp1 Hp2].
  unfold next_returns in Hn. cbn [every every_call] in Hn.
  apply andb_prop in Hn. destruct Hn as [Hn1 Hn3].
  apply andb_prop in Hn1. destruct Hn1 as [_ Hn2].
  unfold run. cbn [run_script run_call BaseSubscriber_dispatch].
  assert (Hf : forall x,
             credit_ok b (run_script T Base (BaseSubscriber_dispatch T NDEBUG cls) (env x))).
  { intros x. apply (run_credit_ok NDEBUG cls (env x) Ha).
    - apply (forallb_exts (fun x => every _ (env x))). exact Hn2.
    - apply (forallb_exts (fun x => signals_only (env x))). exact Hp1. }
  pose proof (onSubscribe_credit_ok NDEBUG cls _ sub Ha Hf (Base_new b) eq_refl eq_refl) as H1.
  pose proof (run_credit_ok NDEBUG cls k' Ha Hn3 Hp2) as H2.
  unfold bind.
  destruct (onSubscribe T NDEBUG cls _ sub (Base_new b)) as [[[[]|x|] o1] tr1];
    try exact H1.
  destruct H1 as [A1 B1]. specialize (A1 ltac:(discriminate)).
  destruct A1 as [W1 E1]. specialize (H2 o1 W1).
  fold (run NDEBUG cls k') in *.
  destruct (run NDEBUG cls k' o1) as [[r o2] tr2].
  destruct H2 as [A2 B2]. split.
  - intros Hr. specialize (A2 Hr). destruct A2 as [W2 E2].
    split; [exact W2|]. rewrite granted_app, count_app. lia.
  - intros d Hd Hc. rewrite compliant_app in Hc.
    apply andb_true_iff in Hc. destruct Hc as [Hc1 Hc2].
    specialize (B1 d Hd Hc1). destruct B1 as [G1 L1].
    specialize (L1 ltac:(discriminate)).
    replace (pending_ (Base_new b) - d + granted tr1 - count is_onNextImpl tr1)
      with (pending_ o1 - d) in Hc2 by lia.
    cbn [pending_ Base_new] in Hd.
    specialize (B2 d ltac:(lia) Hc2). destruct B2 as [G2 L2].
    split; [rewrite count_app; lia|exact L2].
Qed.

End Credit.

(** * The claims *)

(** ** At most one terminal dispatch *)

(** C1, as stated, fails: with a [details::Base] adapter whose [next_]
    throws a [std::exception], the handler of [onNextImpl] calls [cancel()],
    which forwards to the producer's [cancel], and then calls [onErrorImpl]
    itself: two terminal dispatches in one run. *)
Lemma terminal_dispatched_twice :
  ~ count is_terminal_dispatch
      (trace_of (run true details_Base (one_value next_throws_std) (Base_new 1)))
    <= 1.
Proof. vm_compute. intros H. apply H. reflexivity. Qed.

(** C1, amended: in every run, reentrant calls included, for every build,
    for the three adapters and for every subclass whose hooks act on the
    object through its public methods, the dispatches of [onCompleteImpl],
    [onErrorImpl] and the producer's [cancel] number in aggregate at most
    the subscriptions stored by [onSubscribe] plus the times the handler of
    [Base::onNextImpl] caught a throwing [next_]: at most one when one
    subscription is stored and [next_] throws no [std::exception]. *)
Theorem terminal_dispatches_bounded (T : Type) (NDEBUG : bool) (cls : derived)
    (k : script T) (batch : Z) :
  count is_terminal_dispatch (trace_of (run NDEBUG cls k (Base_new batch)))
  <= count is_onSubscribeImpl (trace_of (run NDEBUG cls k (Base_new batch)))
     + count is_next_caught (trace_of (run NDEBUG cls k (Base_new batch))).
Proof.
  pose proof (run_balanced T NDEBUG cls k (Base_new batch)) as H.
  destruct (run NDEBUG cls k (Base_new batch)) as [[r o] tr].
  unfold trace_of. cbn [snd]. destruct H as (H & _).
  unfold present in H. cbn [Base_new super subscription_ is_some] in H.
  destruct (is_some (subscription_ (super o))); lia.
Qed.

(** ** [onTerminateImpl] fires once *)

(** C2, as stated, fails: in a debug build the complete callback of a
    [WithErrorAndComplete] adapter throws, [onCompleteImpl] rethrows the
    wrapped exception, and [onComplete] is left before [onTerminateImpl]:
    a terminal path was taken and [onTerminateImpl] was never entered. *)
Lemma terminal_without_terminate :
  ~ (count is_onTerminateImpl
       (trace_of (run false details_WithErrorAndComplete complete_into_throw
                      (Base_new 1))) = 1
     <-> 1 <= count is_terminal_dispatch
               (trace_of (run false details_WithErrorAndComplete
                              complete_into_throw (Base_new 1)))).
Proof.
  vm_compute. intros [_ H].
  assert (E : 0 = 1) by (apply H; discriminate).
  discriminate E.
Qed.

(** C2, amended: in a run in which no foreign code throws, which returns and
    in which [onSubscribe] stored a subscription at most once,
    [onTerminateImpl] is entered exactly once if and only if a terminal path
    was taken, and never twice; and when [cancel] took it (the producer's
    [cancel] was called), [onCompleteImpl] is never dispatched, whenever
    [onComplete] arrives. *)
Theorem terminate_once_iff_terminal (T : Type) (NDEBUG : bool) (cls : derived)
    (k : script T) (batch : Z) (o : Base) (tr : list (event T)) :
  nothrow k = true ->
  run NDEBUG cls k (Base_new batch) = (Done tt, o, tr) ->
  count is_onSubscribeImpl tr <= 1 ->
  (count is_onTerminateImpl tr = 1 <-> 1 <= count is_terminal_dispatch tr)
  /\ count is_onTerminateImpl tr <= 1
  /\ (1 <= count is_producer_cancel tr ->
      count is_onCompleteImpl tr = 0 /\ count is_onTerminateImpl tr = 1).
Proof.
  intros Hk Hrun Hs.
  pose proof (run_balanced T NDEBUG cls k (Base_new batch)) as Hb.
  pose proof (nothrow_clean T NDEBUG cls k Hk (Base_new batch)) as Hc.
  rewrite Hrun in Hb, Hc.
  destruct Hb as (H1 & _ & _ & H4). destruct Hc as (_ & Hc & Hd).
  specialize (Hd eq_refl).
  unfold present in H1. cbn [Base_new super subscription_ is_some] in H1.
  pose proof (count_nonneg is_onCompleteImpl tr).
  pose proof (count_nonneg is_producer_cancel tr).
  destruct (is_some (subscription_ (super o))); lia.
Qed.

Lemma terminate_once_iff_terminal_witness :
  nothrow cancel_then_complete = true
  /\ run false details_WithErrorAndComplete cancel_then_complete (Base_new 4)
     = (Done tt,
        snd (fst (run false details_WithErrorAndComplete cancel_then_complete
                      (Base_new 4))),
        trace_of (run false details_WithErrorAndComplete cancel_then_complete
                      (Base_new 4)))
  /\ count is_onSubscribeImpl
       (trace_of (run false details_WithErrorAndComplete cancel_then_complete
                      (Base_new 4))) <= 1
  /\ ((count is_onTerminateImpl
         (trace_of (run false details_WithErrorAndComplete cancel_then_complete
                        (Base_new 4))) = 1
       <-> 1 <= count is_terminal_dispatch
                 (trace_of (run false details_WithErrorAndComplete
                                cancel_then_complete (Base_new 4))))
      /\ count is_onTerminateImpl
           (trace_of (run false details_WithErrorAndComplete
                          cancel_then_complete (Base_new 4))) <= 1
      /\ (1 <= count is_producer_cancel
                 (trace_of (run false details_WithErrorAndComplete
                                cancel_then_complete (Base_new 4))) ->
          count is_onCompleteImpl
            (trace_of (run false details_WithErrorAndComplete
                           cancel_then_complete (Base_new 4))) = 0
          /\ count is_onTerminateImpl
               (trace_of (run false details_WithErrorAndComplete
                              cancel_then_complete (Base_new 4))) = 1)).
Proof.
  assert (Hk : nothrow cancel_then_complete = true) by reflexivity.
  assert (Hrun : run false details_WithErrorAndComplete cancel_then_complete
                     (Base_new 4)
                 = (Done tt,
                    snd (fst (run false details_WithErrorAndComplete
                                  cancel_then_complete (Base_new 4))),
                    trace_of (run false details_WithErrorAndComplete
                                  cancel_then_complete (Base_new 4))))
    by reflexivity.
  assert (Hs : count is_onSubscribeImpl
                 (trace_of (run false details_WithErrorAndComplete
                                cancel_then_complete (Base_new 4))) <= 1)
    by (vm_compute; discriminate).
  split; [exact Hk|]. split; [exact Hrun|]. split; [exact Hs|].
  exact (terminate_once_iff_terminal Z false details_WithErrorAndComplete
           cancel_then_complete 4 _ _ Hk Hrun Hs).
Defined.

(** ** No [onNextImpl] after the terminal transition *)

(** C3: once a terminal transition has happened and the slot is empty, a
    call of [onNext] enters nothing, changes nothing and returns, whatever
    the build, the subclass and the foreign code; whatever is called from
    then on, [k'], reentrant calls included, enters no [onNextImpl] as long
    as no new subscription is stored; and in whatever state the object is,
    also in the middle of another call, [onNext] with an empty slot enters
    nothing. *)
Theorem onNext_after_terminal_dropped (T : Type) (NDEBUG : bool) (cls : derived)
    (k : script T) (batch : Z) (r : outcome unit) (o : Base)
    (tr : list (event T)) (foreign : ext -> M T Base unit) (t : T)
    (k' : script T) :
  run NDEBUG cls k (Base_new batch) = (r, o, tr) ->
  1 <= count is_terminal_dispatch tr ->
  subscription_ (super o) = None ->
  onNext T NDEBUG cls foreign t o = (Done tt, o, [])
  /\ (count is_onSubscribeImpl (trace_of (run NDEBUG cls k' o)) = 0 ->
      count is_onNextImpl (trace_of (run NDEBUG cls k' o)) = 0)
  /\ (forall o' : Base,
        subscription_ (super o') = None ->
        exists r', onNext T NDEBUG cls foreign t o' = (r', o', [])).
Proof.
  intros Hrun Ht Hs. split; [|split].
  - destruct NDEBUG.
    + destruct o as [[s g1 g2] bt p]. cbn in Hs. subst s. reflexivity.
    + pose proof (run_flagged T cls k (Base_new batch)) as Hf.
      rewrite Hrun in Hf. unfold flag_follows in Hf.
      assert (Hg : subscribed o = 1)
        by (apply Hf; [vm_compute; discriminate|exact Ht]).
      destruct o as [[s g1 g2] bt p]. cbn in Hs, Hg. subst s.
      destruct g1; [reflexivity|discriminate Hg].
  - intros Hn. pose proof (run_idle T NDEBUG cls k' o) as Hi.
    destruct (run NDEBUG cls k' o) as [[r' o'] tr'].
    unfold trace_of in *. cbn [snd] in *. unfold stays_idle in Hi.
    apply Hi. unfold present. rewrite Hs. cbn [is_some]. lia.
  - intros o' Hs'.
    destruct o' as [[s g1 g2] bt p]. cbn in Hs'. subst s.
    destruct NDEBUG; [eexists; reflexivity|].
    destruct g1; eexists; reflexivity.
Qed.

Lemma onNext_after_terminal_dropped_witness :
  run false details_Base cancel_then_complete (Base_new 4)
  = (Done tt,
     snd (fst (run false details_Base cancel_then_complete (Base_new 4))),
     trace_of (run false details_Base cancel_then_complete (Base_new 4)))
  /\ 1 <= count is_terminal_dispatch
            (trace_of (run false details_Base cancel_then_complete (Base_new 4)))
  /\ subscription_
       (super (snd (fst (run false details_Base cancel_then_complete
                             (Base_new 4))))) = None
  /\ onNext Z false details_Base (fun _ => ret tt) 5
       (snd (fst (run false details_Base cancel_then_complete (Base_new 4))))
     = (Done tt,
        snd (fst (run false details_Base cancel_then_complete (Base_new 4))),
        []).
Proof.
  assert (Hrun : run false details_Base cancel_then_complete (Base_new 4)
                 = (Done tt,
                    snd (fst (run false details_Base cancel_then_complete
                                  (Base_new 4))),
                    trace_of (run false details_Base cancel_then_complete
                                  (Base_new 4))))
    by reflexivity.
  assert (Ht : 1 <= count is_terminal_dispatch
                      (trace_of (run false details_Base cancel_then_complete
                                     (Base_new 4))))
    by (vm_compute; discriminate).
  assert (Hs : subscription_
                 (super (snd (fst (run false details_Base cancel_then_complete
                                       (Base_new 4))))) = None)
    by reflexivity.
  split; [exact Hrun|]. split; [exact Ht|]. split; [exact Hs|].
  exact (proj1 (onNext_after_terminal_dropped Z false details_Base
                  cancel_then_complete 4 _ _ _ (fun _ => ret tt) 5 Return
                  Hrun Ht Hs)).
Defined.

(** ** [cancel] is idempotent *)

(** C4: in a run in which one subscription is stored, however [cancel] and
    the terminal signals interleave, the producer's [cancel] is called at
    most once; and once the slot is empty a call of [cancel] enters nothing
    and changes nothing. *)
Theorem cancel_reaches_producer_once (T : Type) (NDEBUG : bool) (cls : derived)
    (k : script T) (batch : Z) (r : outcome unit) (o : Base)
    (tr : list (event T)) (foreign : ext -> M T Base unit) :
  run NDEBUG cls k (Base_new batch) = (r, o, tr) ->
  count is_onSubscribeImpl tr <= 1 ->
  count is_producer_cancel tr <= 1
  /\ (subscription_ (super o) = None ->
      cancel T cls foreign o = (Done tt, o, [])).
Proof.
  intros Hrun Hs. split.
  - pose proof (run_balanced T NDEBUG cls k (Base_new batch)) as Hb.
    rewrite Hrun in Hb. destruct Hb as (_ & H2 & _).
    unfold present in H2. cbn [Base_new super subscription_ is_some] in H2.
    destruct (is_some (subscription_ (super o))); lia.
  - intros Hn. destruct o as [[s g1 g2] bt p]. cbn in Hn. subst s.
    reflexivity.
Qed.

Lemma cancel_reaches_producer_once_witness :
  run true details_Base cancel_then_complete (Base_new 4)
  = (Done tt,
     snd (fst (run true details_Base cancel_then_complete (Base_new 4))),
     trace_of (run true details_Base cancel_then_complete (Base_new 4)))
  /\ count is_onSubscribeImpl
       (trace_of (run true details_Base cancel_then_complete (Base_new 4))) <= 1
  /\ count is_producer_cancel
       (trace_of (run true details_Base cancel_then_complete (Base_new 4))) <= 1.
Proof.
  assert (Hrun : run true details_Base cancel_then_complete (Base_new 4)
                 = (Done tt,
                    snd (fst (run true details_Base cancel_then_complete
                                  (Base_new 4))),
                    trace_of (run true details_Base cancel_then_complete
                                  (Base_new 4))))
    by reflexivity.
  assert (Hs : count is_onSubscribeImpl
                 (trace_of (run true details_Base cancel_then_complete
                                (Base_new 4))) <= 1)
    by (vm_compute; discriminate).
  split; [exact Hrun|]. split; [exact Hs|].
  exact (proj1 (cancel_reaches_producer_once Z true details_Base
                  cancel_then_complete 4 _ _ _ (fun _ => ret tt) Hrun Hs)).
Defined.

(** ** Credit safety *)

(** C5: for a batched adapter with a batch size between 1 and the largest
    [int64_t], in a run driven by a producer whose [next_] never throws, at
    every point between the producer's calls the credit requested less the
    values delivered equals [pending_], which lies between [batch / 2] and
    [batch] and so is not negative. *)
Theorem credit_safety (T : Type) (NDEBUG : bool) (cls : derived)
    (k : script T) (batch : Z) (r : outcome unit) (o : Base)
    (tr : list (event T)) :
  is_adapter cls = true ->
  0 < batch -> batch <= INT64_MAX ->
  producer_run k = true -> next_returns k = true ->
  run NDEBUG cls k (Base_new batch) = (r, o, tr) ->
  r <> Aborted ->
  granted tr - count is_onNextImpl tr = pending_ o
  /\ batch ÷ 2 <= pending_ o <= batch
  /\ 0 <= pending_ o <= batch.
Proof.
  intros Ha Hb1 Hb2 Hp Hn Hrun Hr.
  pose proof (producer_run_credit T batch Hb1 Hb2 NDEBUG cls k Ha Hp Hn) as H.
  rewrite Hrun in H. destruct H as [A _]. specialize (A Hr).
  destruct A as [[_ W] E]. cbn [pending_ Base_new] in E.
  pose proof (half_bounds batch Hb1). lia.
Qed.

Lemma credit_safety_witness :
  is_adapter details_WithErrorAndComplete = true
  /\ 0 < 4 /\ 4 <= INT64_MAX
  /\ producer_run (finite_stream 7%nat [1; 2; 3; 4; 5]) = true
  /\ next_returns (finite_stream 7%nat [1; 2; 3; 4; 5]) = true
  /\ run true details_WithErrorAndComplete
         (finite_stream 7%nat [1; 2; 3; 4; 5]) (Base_new 4)
     = (Done tt,
        snd (fst (run true details_WithErrorAndComplete
                      (finite_stream 7%nat [1; 2; 3; 4; 5]) (Base_new 4))),
        trace_of (run true details_WithErrorAndComplete
                      (finite_stream 7%nat [1; 2; 3; 4; 5]) (Base_new 4)))
  /\ Done tt <> @Aborted unit
  /\ (granted (trace_of (run true details_WithErrorAndComplete
                             (finite_stream 7%nat [1; 2; 3; 4; 5]) (Base_new 4)))
      - count is_onNextImpl
          (trace_of (run true details_WithErrorAndComplete
                         (finite_stream 7%nat [1; 2; 3; 4; 5]) (Base_new 4)))
      = pending_ (snd (fst (run true details_WithErrorAndComplete
                                (finite_stream 7%nat [1; 2; 3; 4; 5])
                                (Base_new 4))))
      /\ 4 ÷ 2
         <= pending_ (snd (fst (run true details_WithErrorAndComplete
                                    (finite_stream 7%nat [1; 2; 3; 4; 5])
                                    (Base_new 4))))
         <= 4
      /\ 0
         <= pending_ (snd (fst (run true details_WithErrorAndComplete
                                    (finite_stream 7%nat [1; 2; 3; 4; 5])
                                    (Base_new 4))))
         <= 4).
Proof.
  assert (Ha : is_adapter details_WithErrorAndComplete = true) by reflexivity.
  assert (Hb1 : 0 < 4) by reflexivity.
  assert (Hb2 : 4 <= INT64_MAX) by (vm_compute; discriminate).
  assert (Hp : producer_run (finite_stream 7%nat [1; 2; 3; 4; 5]) = true)
    by reflexivity.
  assert (Hn : next_returns (finite_stream 7%nat [1; 2; 3; 4; 5]) = true)
    by reflexivity.
  assert (Hrun : run true details_WithErrorAndComplete
                     (finite_stream 7%nat [1; 2; 3; 4; 5]) (Base_new 4)
                 = (Done tt,
                    snd (fst (run true details_WithErrorAndComplete
                                  (finite_stream 7%nat [1; 2; 3; 4; 5])
                                  (Base_new 4))),
                    trace_of (run true details_WithErrorAndComplete
                                  (finite_stream 7%nat [1; 2; 3; 4; 5])
                                  (Base_new 4))))
    by reflexivity.
  assert (Hr : Done tt <> @Aborted unit) by discriminate.
  repeat (split; [assumption|]).
  exact (credit_safety Z true details_WithErrorAndComplete
           (finite_stream 7%nat [1; 2; 3; 4; 5]) 4 (Done tt) _ _
           Ha Hb1 Hb2 Hp Hn Hrun Hr).
Defined.

(** ** Refill grants *)

(** C6: under the same conditions and with a producer that never delivers
    more values than the credit granted, every grant of the adapter, the
    first [request(batch)] and each refill, is at least the ceiling of
    [batch / 2] and at most [batch]. *)
Theorem refill_grants_bounded (T : Type) (NDEBUG : bool) (cls : derived)
    (k : script T) (batch : Z) :
  is_adapter cls = true ->
  0 < batch -> batch <= INT64_MAX ->
  producer_run k = true -> next_returns k = true ->
  compliant 0 (trace_of (run NDEBUG cls k (Base_new batch))) = true ->
  Forall (fun n => half_up batch <= n <= batch)
         (grants (trace_of (run NDEBUG cls k (Base_new batch)))).
Proof.
  intros Ha Hb1 Hb2 Hp Hn Hc.
  pose proof (producer_run_credit T batch Hb1 Hb2 NDEBUG cls k Ha Hp Hn) as H.
  destruct (run NDEBUG cls k (Base_new batch)) as [[r o] tr].
  unfold trace_of in *. cbn [snd] in *. destruct H as [_ B].
  cbn [pending_ Base_new] in B.
  specialize (B 0 ltac:(lia) Hc). destruct B as [G _].
  apply grants_in_bounds. exact G.
Qed.

Lemma refill_grants_bounded_witness :
  is_adapter details_Base = true
  /\ 0 < 4 /\ 4 <= INT64_MAX
  /\ producer_run (finite_stream 7%nat [1; 2; 3; 4; 5]) = true
  /\ next_returns (finite_stream 7%nat [1; 2; 3; 4; 5]) = true
  /\ compliant 0 (trace_of (run true details_Base
                                (finite_stream 7%nat [1; 2; 3; 4; 5])
                                (Base_new 4))) = true
  /\ Forall (fun n => half_up 4 <= n <= 4)
            (grants (trace_of (run true details_Base
                                   (finite_stream 7%nat [1; 2; 3; 4; 5])
                                   (Base_new 4)))).
Proof.
  assert (Ha : is_adapter details_Base = true) by reflexivity.
  assert (Hb1 : 0 < 4) by reflexivity.
  assert (Hb2 : 4 <= INT64_MAX) by (vm_compute; discriminate).
  assert (Hp : producer_run (finite_stream 7%nat [1; 2; 3; 4; 5]) = true)
    by reflexivity.
  assert (Hn : next_returns (finite_stream 7%nat [1; 2; 3; 4; 5]) = true)
    by reflexivity.
  assert (Hc : compliant 0 (trace_of (run true details_Base
                                          (finite_stream 7%nat [1; 2; 3; 4; 5])
                                          (Base_new 4))) = true)
    by reflexivity.
  repeat (split; [assumption|]).
  exact (refill_grants_bounded Z true details_Base
           (finite_stream 7%nat [1; 2; 3; 4; 5]) 4 Ha Hb1 Hb2 Hp Hn Hc).
Defined.

(** ** A finite stream with batch 4 *)

(** C7, as stated, fails: after the first [request(4)] the adapter does not
    call [request(2)]. *)
Lemma second_grant_is_not_2 :
  grants (trace_of (run true details_WithErrorAndComplete
                        (finite_stream 7%nat [1; 2; 3; 4; 5]) (Base_new 4)))
  <> [4; 2].
Proof. vm_compute. discriminate. Qed.

(** C7, amended: the producer delivers 1, 2, 3, 4, 5 and completes, batch
    size 4.  [next_] receives the five values in order; [request(4)] is
    called on subscribe; [pending_] falls from 4 to 3, 2 and 1, and right
    after value 3 is consumed, 1 being below 4 / 2, [request(3)] is called
    and [pending_] is 4 again; it is 2 at the end; the complete callback is
    called once, followed by [onTerminateImpl]. *)
Theorem finite_stream_batch_4 (NDEBUG : bool) (s : Subscription) :
  fst (fst (run NDEBUG details_WithErrorAndComplete
                (finite_stream s [1; 2; 3; 4; 5]) (Base_new 4))) = Done tt
  /\ pending_ (snd (fst (run NDEBUG details_WithErrorAndComplete
                             (finite_stream s [1; 2; 3; 4; 5]) (Base_new 4)))) = 2
  /\ trace_of (run NDEBUG details_WithErrorAndComplete
                   (finite_stream s [1; 2; 3; 4; 5]) (Base_new 4))
     = [EvOnSubscribeImpl; EvRequest 4; EvSubRequest s 4;
        EvOnNextImpl 1; EvNext 1;
        EvOnNextImpl 2; EvNext 2;
        EvOnNextImpl 3; EvNext 3; EvRequest 3; EvSubRequest s 3;
        EvOnNextImpl 4; EvNext 4;
        EvOnNextImpl 5; EvNext 5;
        EvOnCompleteImpl; EvComplete; EvOnTerminateImpl]
  /\ received (trace_of (run NDEBUG details_WithErrorAndComplete
                             (finite_stream s [1; 2; 3; 4; 5]) (Base_new 4)))
     = [1; 2; 3; 4; 5]
  /\ grants (trace_of (run NDEBUG details_WithErrorAndComplete
                           (finite_stream s [1; 2; 3; 4; 5]) (Base_new 4)))
     = [4; 3]
  /\ count is_complete_callback
       (trace_of (run NDEBUG details_WithErrorAndComplete
                      (finite_stream s [1; 2; 3; 4; 5]) (Base_new 4))) = 1.
Proof. destruct NDEBUG; repeat split. Qed.

(** ** A throwing [next_] *)

(** C8, as stated, fails: a [next_] that throws an [int] is not caught; the
    adapter neither cancels nor reports. *)
Lemma thrown_int_not_reported :
  ~ (count is_producer_cancel
       (trace_of (run true details_WithError (one_value next_throws_int)
                      (Base_new 1))) = 1
     /\ count is_error_callback
          (trace_of (run true details_WithError (one_value next_throws_int)
                         (Base_new 1))) = 1
     /\ count is_onTerminateImpl
          (trace_of (run true details_WithError (one_value next_throws_int)
                         (Base_new 1))) = 1).
Proof. vm_compute. intros (H & _). discriminate H. Qed.

(** C8, amended: when [next_] throws a [std::exception] while the slot
    still holds a subscription [s], and the producer's [cancel] and the
    error callback return, [onNext] cancels the subscription (calling the
    producer's [cancel] and then [onTerminateImpl], once), logs, and calls
    [onErrorImpl] with the wrapped exception, which hands it to the error
    callback of an adapter that has one; it enters neither [onCompleteImpl]
    nor the complete callback, and returns. *)
Theorem throwing_next_cancels_and_reports (T : Type) (NDEBUG : bool)
    (cls : derived) (foreign : ext -> M T Base unit) (t : T)
    (o o1 o2 o3 : Base) (s : Subscription) (exn : std_exception)
    (tr1 tr2 tr3 : list (event T)) :
  is_adapter cls = true ->
  is_some (subscription_ (super o)) = true ->
  (NDEBUG = false -> gotOnSubscribe_ (super o) = true) ->
  foreign NextCb o = (Raised (StdException exn), o1, tr1) ->
  subscription_ (super o1) = Some s ->
  foreign SubCancel (set_subscription_ None o1) = (Done tt, o2, tr2) ->
  foreign ErrorCb o2 = (Done tt, o3, tr3) ->
  onNext T NDEBUG cls foreign t o
  = (Done tt,
     match cls with details_Base => o2 | _ => o3 end,
     [EvOnNextImpl t; EvNext t] ++ tr1
     ++ [EvSubCancel s] ++ tr2
     ++ [EvOnTerminateImpl; EvLogError NextCb exn; EvOnErrorImpl (Wrap exn)]
     ++ match cls with
        | details_Base => []
        | _ => [EvError (Wrap exn)] ++ tr3
        end).
Proof.
  intros Ha Hs Hg H1 Hs1 H2 H3.
  destruct o as [[sl g1 g2] bt p]. cbn [super subscription_ gotOnSubscribe_] in Hs, Hg.
  destruct sl as [s0|]; [|discriminate Hs].
  assert (Hg' : NDEBUG = true \/ g1 = true)
    by (destruct NDEBUG; [left; reflexivity|right; apply Hg; reflexivity]).
  destruct cls; try discriminate Ha;
    (destruct Hg' as [-> | ->]; [|destruct NDEBUG]);
    unfold_methods; unfold_monad; fields;
    rewrite H1; fields; rewrite Hs1; fields; rewrite H2;
    fields; rewrite ?H3; fields;
    rewrite <- ?app_assoc, ?app_nil_r; reflexivity.
Qed.

Lemma throwing_next_cancels_and_reports_witness :
  onNext Z true details_WithError
    (fun x o => match x with
                | NextCb => (Raised (StdException "E"%string), o, [])
                | _ => (Done tt, o, [])
                end)
    5 (set_subscription_ (Some 7%nat) (Base_new 1))
  = (Done tt, Base_new 1,
     [EvOnNextImpl 5; EvNext 5; EvSubCancel 7%nat; EvOnTerminateImpl;
      EvLogError NextCb "E"%string; EvOnErrorImpl (Wrap "E"%string);
      EvError (Wrap "E"%string)]).
Proof.
  exact (throwing_next_cancels_and_reports Z true details_WithError
           (fun x o => match x with
                       | NextCb => (Raised (StdException "E"%string), o, [])
                       | _ => (Done tt, o, [])
                       end)
           5 (set_subscription_ (Some 7%nat) (Base_new 1))
           (set_subscription_ (Some 7%nat) (Base_new 1))
           (Base_new 1) (Base_new 1) 7%nat "E"%string [] [] []
           eq_refl eq_refl (fun E => match Bool.diff_true_false E with end)
           eq_refl eq_refl eq_refl eq_refl).
Defined.

(** ** The null subscriber *)

(** C9, as stated, fails: [NullSubscriber] is not a [BaseSubscriber]; its
    [onComplete] is empty and no [onTerminateImpl] is ever entered. *)
Lemma null_subscriber_never_terminates :
  ~ count is_onTerminateImpl
      (trace_of (run_null INT64_MAX (finite_stream 7%nat [1; 2; 3]) tt)) = 1.
Proof. vm_compute. discriminate. Qed.

Lemma run_null_deliver (T : Type) (kNoFlowControl : Z) (vs : list T)
    (k : script T) :
  run_null kNoFlowControl (deliver vs k) tt = run_null kNoFlowControl k tt.
Proof.
  induction vs as [|v vs IH]; [reflexivity|].
  cbn [deliver]. unfold run_null in *. cbn [run_script run_call].
  unfold bind. cbn [NullSubscriber_dispatch ret]. rewrite IH.
  destruct (run_script T unit (NullSubscriber_dispatch T kNoFlowControl) k tt)
    as [[r u] tr].
  reflexivity.
Qed.

(** C9, amended: for the null subscriber, when a producer subscribes,
    delivers any number of values and completes, the only thing that
    happens is one [request(kNoFlowControl)] on subscribe: the values are
    discarded and nothing is entered on completion. *)
Theorem null_subscriber_requests_once (T : Type) (kNoFlowControl : Z)
    (s : Subscription) (vs : list T) :
  run_null kNoFlowControl (finite_stream s vs) tt
  = (Done tt, tt, [EvSubRequest s kNoFlowControl]).
Proof.
  unfold finite_stream, run_null. cbn [run_script run_call].
  fold (run_null kNoFlowControl (deliver vs (Do (Call OnComplete quiet) Return))).
  unfold bind at 1. cbn.
  rewrite run_null_deliver. reflexivity.
Qed.

(** ** A [next_] that throws something else *)

(** C10: when [next_] throws a value that is not a [std::exception],
    [onNextImpl] does not catch it: the exception leaves [onNextImpl], and
    [onNext] with it, the object is as [next_] left it ([pending_] is not
    decremented) and nothing is entered after [next_]: no [cancel], no
    error callback. *)
Theorem foreign_exception_propagates (T : Type) (NDEBUG : bool) (cls : derived)
    (foreign : ext -> M T Base unit) (t : T) (o o1 : Base) (x : thrown)
    (tr1 : list (event T)) :
  is_adapter cls = true ->
  (forall exn, x <> StdException exn) ->
  foreign NextCb o = (Raised x, o1, tr1) ->
  onNextImpl T NDEBUG cls foreign t o
  = (Raised x, o1, [EvOnNextImpl t; EvNext t] ++ tr1)
  /\ (is_some (subscription_ (super o)) = true ->
      (NDEBUG = false -> gotOnSubscribe_ (super o) = true) ->
      onNext T NDEBUG cls foreign t o
      = (Raised x, o1, [EvOnNextImpl t; EvNext t] ++ tr1)).
Proof.
  intros Ha Hx H1.
  assert (E : onNextImpl T NDEBUG cls foreign t o
              = (Raised x, o1, [EvOnNextImpl t; EvNext t] ++ tr1)).
  { unfold_methods. unfold_monad.
    destruct cls; try discriminate Ha; rewrite H1;
      (destruct x as [exn| |]; [exfalso; exact (Hx exn eq_refl)| |]);
      reflexivity. }
  split; [exact E|].
  intros Hs Hg.
  assert (Hg' : NDEBUG = true \/ gotOnSubscribe_ (super o) = true)
    by (destruct NDEBUG; [left; reflexivity|right; apply Hg; reflexivity]).
  unfold onNext, ifndef_NDEBUG, atomic_load.
  destruct o as [[sl g1 g2] bt p].
  cbn [super subscription_ gotOnSubscribe_] in Hs, Hg'.
  destruct sl as [s0|]; [|discriminate Hs].
  destruct Hg' as [-> | ->]; [|destruct NDEBUG];
    unfold_monad; fields; rewrite E; reflexivity.
Qed.

Lemma foreign_exception_propagates_witness :
  onNextImpl Z true details_WithError
    (fun x o => match x with
                | NextCb => (Raised (OtherThrown 42), o, [])
                | _ => (Done tt, o, [])
                end)
    5 (set_subscription_ (Some 7%nat) (Base_new 1))
  = (Raised (OtherThrown 42), set_subscription_ (Some 7%nat) (Base_new 1),
     [EvOnNextImpl 5; EvNext 5]).
Proof.
  exact (proj1 (foreign_exception_propagates Z true details_WithError
           (fun x o => match x with
                       | NextCb => (Raised (OtherThrown 42), o, [])
                       | _ => (Done tt, o, [])
                       end)
           5 (set_subscription_ (Some 7%nat) (Base_new 1))
           (set_subscription_ (Some 7%nat) (Base_new 1))
           (OtherThrown 42) []
           eq_refl
           (fun exn E => match E in _ = y
                               return match y with
                                      | OtherThrown _ => True
                                      | _ => False
                                      end
                         with eq_refl => I end)
           eq_refl)).
Defined.

(** * Further properties *)

Ltac count_more :=
  repeat (rewrite ?count_app, ?count_cons, ?count_nil;
          cbn [is_terminal_dispatch is_onTerminateImpl is_onCompleteImpl
               is_onNextImpl is_onSubscribeImpl is_producer_cancel
               is_next_caught is_error_callback is_complete_callback
               is_request is_dispatch is_producer_call negb]).

Ltac split_more :=
  repeat match goal with
         | H : subscription_ _ = _ |- _ => rewrite H in *; clear H
         | H : gotOnSubscribe_ _ = _ |- _ => rewrite H in *; clear H
         | H : gotTerminating_ _ = _ |- _ => rewrite H in *; clear H
         end;
  fields;
  repeat match goal with
         | |- context [subscription_ (super ?o)] =>
             destruct (subscription_ (super o))
         | H : context [subscription_ (super ?o)] |- _ =>
             destruct (subscription_ (super o))
         | |- context [gotOnSubscribe_ (super ?o)] =>
             destruct (gotOnSubscribe_ (super o))
         | H : context [gotOnSubscribe_ (super ?o)] |- _ =>
             destruct (gotOnSubscribe_ (super o))
         | |- context [gotTerminating_ (super ?o)] =>
             destruct (gotTerminating_ (super o))
         | H : context [gotTerminating_ (super ?o)] |- _ =>
             destruct (gotTerminating_ (super o))
         end;
  fields; cbn [Z.b2z] in *.

Ltac tally_more :=
  unfold present, subscribed, terminating in *; fields; split_more; count_more;
  repeat match goal with
         | |- context [count ?p ?tr] =>
             lazymatch goal with
             | _ : 0 <= count p tr |- _ => fail
             | _ => pose proof (count_nonneg p tr)
             end
         end;
  try lia.

(** The same without splitting on the fields of the states met. *)
Lemma b2z_bounds (b : bool) : 0 <= Z.b2z b <= 1.
Proof. destruct b; simpl; lia. Qed.

Ltac tally_flags :=
  unfold subscribed, terminating in *; fields;
  repeat match goal with
         | H : gotOnSubscribe_ _ = _ |- _ => rewrite H in *; clear H
         | H : gotTerminating_ _ = _ |- _ => rewrite H in *; clear H
         | H : negb ?b = _ |- _ =>
             destruct b; cbn [negb] in H; try discriminate H; clear H
         end;
  fields; cbn [Z.b2z] in *; count_more;
  repeat match goal with
         | |- context [Z.b2z ?b] =>
             lazymatch goal with
             | _ : 0 <= Z.b2z b <= 1 |- _ => fail
             | _ => pose proof (b2z_bounds b)
             end
         end;
  try lia.

(** Lift a property of stretches of execution that composes from the
    methods to the runs. *)
Section Lifting.

Variable T : Type.
Variable NDEBUG : bool.
Variable cls : derived.
Variable R : Base -> list (event T) -> Base -> Prop.

Hypothesis R_refl : forall o, R o [] o.
Hypothesis R_trans :
  forall o1 o2 o3 tr1 tr2, R o1 tr1 o2 -> R o2 tr2 o3 -> R o1 (tr1 ++ tr2) o3.
Hypothesis R_dispatch :
  forall foreign o,
    (forall x, preserves R (foreign x)) ->
    preserves R (BaseSubscriber_dispatch T NDEBUG cls foreign o).

Lemma holds_bind (m k : M T Base unit) :
  preserves R m -> preserves R k -> preserves R (m ;; k).
Proof.
  intros Hm Hk o. unfold bind.
  specialize (Hm o). destruct (m o) as [[[[]|x|] o1] tr1]; try exact Hm.
  specialize (Hk o1). destruct (k o1) as [[r o2] tr2].
  eapply R_trans; eassumption.
Qed.

Lemma holds_swallow (m : M T Base unit) :
  preserves R m -> preserves R (swallow m).
Proof.
  intros Hm o. unfold swallow. specialize (Hm o).
  destruct (m o) as [[[[]|x|] o1] tr1]; exact Hm.
Qed.

Lemma run_holds (k : script T) : preserves R (run NDEBUG cls k).
Proof.
  unfold run.
  induction k using script_mut
    with (P0 := fun c =>
            preserves R
              (run_call T Base (BaseSubscriber_dispatch T NDEBUG cls) c));
    cbn [run_script run_call].
  - intros o. apply R_refl.
  - intros o. apply R_refl.
  - apply holds_bind; assumption.
  - apply holds_bind; [apply holds_swallow|]; assumption.
  - apply R_dispatch. assumption.
Qed.

End Lifting.

Section Dormant.

Variable T : Type.

Lemma dispatch_dormant NDEBUG cls foreign (o : op T) :
  (forall x, dormant (foreign x)) ->
  dormant (BaseSubscriber_dispatch T NDEBUG cls foreign o).
Proof.
  intros Hf s. unfold dormant, stays_dormant in *.
  destruct o; unfold_methods; unfold_monad; destruct cls; destruct NDEBUG.
  all: crank foreign Hf.
  all: tally_more.
Qed.

Lemma run_dormant NDEBUG cls (k : script T) : dormant (run NDEBUG cls k).
Proof.
  refine (run_holds T NDEBUG cls stays_dormant _ _ _ k).
  - intros o. unfold stays_dormant. count_more. lia.
  - intros o1 o2 o3 tr1 tr2 H1 H2. unfold stays_dormant in *. count_more.
    pose proof (count_nonneg is_onSubscribeImpl tr1).
    pose proof (count_nonneg is_onSubscribeImpl tr2).
    assert (0 <= present o1 /\ 0 <= present o2)
      by (unfold present; destruct (is_some (subscription_ (super o1)));
          destruct (is_some (subscription_ (super o2))); lia).
    lia.
  - intros foreign o. apply dispatch_dormant.
Qed.

Lemma dispatch_claiming NDEBUG cls foreign (o : op T) :
  (forall x, claiming (foreign x)) ->
  claiming (BaseSubscriber_dispatch T NDEBUG cls foreign o).
Proof.
  intros Hf s. unfold claiming, claims_slot in *.
  destruct o; unfold_methods; unfold_monad; destruct cls; destruct NDEBUG.
  all: crank foreign Hf.
  all: tally_more.
Qed.

Lemma run_claiming NDEBUG cls (k : script T) : claiming (run NDEBUG cls k).
Proof.
  refine (run_holds T NDEBUG cls claims_slot _ _ _ k).
  - intros o. unfold claims_slot. count_more. lia.
  - intros o1 o2 o3 tr1 tr2 H1 H2. unfold claims_slot in *. count_more. lia.
  - intros foreign o. apply dispatch_claiming.
Qed.

Lemma dispatch_latched cls foreign (o : op T) :
  (forall x, latched (foreign x)) ->
  latched (BaseSubscriber_dispatch T false cls foreign o).
Proof.
  intros Hf s. unfold latched, latches in *.
  destruct o; unfold_methods; unfold_monad; destruct cls.
  all: crank foreign Hf.
  all: tally_flags.
Qed.

Lemma run_latched cls (k : script T) : latched (run false cls k).
Proof.
  refine (run_holds T false cls latches _ _ _ k).
  - intros o. unfold latches. count_more. lia.
  - intros o1 o2 o3 tr1 tr2 H1 H2. unfold latches in *. count_more. lia.
  - intros foreign o. apply dispatch_latched.
Qed.

End Dormant.

Section Release.

Variable T : Type.

Lemma dispatch_never_aborts cls foreign (o : op T) :
  (forall s, o <> OnSubscribe s) ->
  (forall x, never_aborts (foreign x)) ->
  never_aborts (BaseSubscriber_dispatch T true cls foreign o).
Proof.
  intros Ho Hf s. unfold never_aborts in *.
  destruct o; try (exfalso; eapply Ho; reflexivity);
    unfold_methods; unfold_monad; destruct cls.
  all: crank_with foreign Hf
         ltac:(fun H => try (exfalso; apply H; reflexivity); clear H).
  all: cbn [fst]; discriminate.
Qed.

Lemma never_aborts_bind {S} (m k : M T S unit) :
  never_aborts m -> never_aborts k -> never_aborts (m ;; k).
Proof.
  intros Hm Hk o. unfold bind.
  specialize (Hm o). destruct (m o) as [[[[]|x|] o1] tr1]; try exact Hm.
  specialize (Hk o1). destruct (k o1) as [[r o2] tr2]. exact Hk.
Qed.

Lemma never_aborts_swallow {S} (m : M T S unit) :
  never_aborts m -> never_aborts (swallow m).
Proof.
  intros Hm o. unfold swallow. specialize (Hm o).
  destruct (m o) as [[[[]|x|] o1] tr1]; try exact Hm.
  cbn. discriminate.
Qed.

Lemma run_never_aborts cls (k : script T) :
  no_subscribe k = true -> never_aborts (run true cls k).
Proof.
  unfold run, no_subscribe.
  induction k using script_mut
    with (P0 := fun c =>
            every_call
              (fun o _ => match o with OnSubscribe _ => false | _ => true end)
              c = true ->
            never_aborts
              (run_call T Base (BaseSubscriber_dispatch T true cls) c));
    cbn [run_script run_call every every_call]; intros Hk.
  - intros o. cbn. discriminate.
  - intros o. cbn. discriminate.
  - apply andb_prop in Hk. destruct Hk. apply never_aborts_bind; auto.
  - apply andb_prop in Hk. destruct Hk.
    apply never_aborts_bind; [apply never_aborts_swallow|]; auto.
  - apply andb_prop in Hk. destruct Hk as [Ho Hk].
    apply dispatch_never_aborts.
    + intros s ->. discriminate Ho.
    + intros x. apply H.
      apply (forallb_exts (fun x => every _ (env x))). exact Hk.
Qed.

End Release.

(** ** Before the subscription and after the end *)

(** X1: while the slot is empty (before [onSubscribe], after a terminal
    signal or [cancel]) and no subscription is stored, whatever is called,
    reentrant calls included, enters no hook, reaches neither the producer
    nor a callable of the user and logs nothing; the slot stays empty and
    [pending_] keeps its value. *)
Theorem nothing_happens_without_subscription (T : Type) (NDEBUG : bool)
    (cls : derived) (k : script T) (o : Base) :
  subscription_ (super o) = None ->
  count is_onSubscribeImpl (trace_of (run NDEBUG cls k o)) = 0 ->
  count is_dispatch (trace_of (run NDEBUG cls k o)) = 0
  /\ subscription_ (super (snd (fst (run NDEBUG cls k o)))) = None
  /\ pending_ (snd (fst (run NDEBUG cls k o))) = pending_ o.
Proof.
  intros Hs Hn. pose proof (run_dormant T NDEBUG cls k o) as H.
  destruct (run NDEBUG cls k o) as [[r o'] tr].
  unfold trace_of in *. cbn [fst snd] in *. unfold stays_dormant in H.
  assert (Hp : present o = 0) by (unfold present; rewrite Hs; reflexivity).
  destruct H as (H1 & H2 & H3); [lia|].
  split; [exact H1|]. split; [|exact H3].
  unfold present in H2. destruct (subscription_ (super o')); [|reflexivity].
  discriminate H2.
Qed.

Lemma nothing_happens_without_subscription_witness :
  subscription_ (super (Base_new 4)) = None
  /\ count is_onSubscribeImpl
       (trace_of (run true details_WithErrorAndComplete
                      (deliver [1; 2] (Do (Call Cancel quiet)
                                          (Do (Call (Request 5) quiet)
                                              (Do (Call OnComplete quiet) Return))))
                      (Base_new 4))) = 0
  /\ (count is_dispatch
        (trace_of (run true details_WithErrorAndComplete
                       (deliver [1; 2] (Do (Call Cancel quiet)
                                           (Do (Call (Request 5) quiet)
                                               (Do (Call OnComplete quiet) Return))))
                       (Base_new 4))) = 0
      /\ subscription_
           (super (snd (fst (run true details_WithErrorAndComplete
                                 (deliver [1; 2]
                                    (Do (Call Cancel quiet)
                                        (Do (Call (Request 5) quiet)
                                            (Do (Call OnComplete quiet) Return))))
                                 (Base_new 4))))) = None
      /\ pending_ (snd (fst (run true details_WithErrorAndComplete
                                 (deliver [1; 2]
                                    (Do (Call Cancel quiet)
                                        (Do (Call (Request 5) quiet)
                                            (Do (Call OnComplete quiet) Return))))
                                 (Base_new 4))))
         = pending_ (Base_new 4)).
Proof.
  split; [reflexivity|]. split; [reflexivity|].
  exact (nothing_happens_without_subscription Z true
           details_WithErrorAndComplete
           (deliver [1; 2] (Do (Call Cancel quiet)
                               (Do (Call (Request 5) quiet)
                                   (Do (Call OnComplete quiet) Return))))
           (Base_new 4) eq_refl eq_refl).
Defined.

(** X2: in every build and every run, also when callbacks throw,
    [onTerminateImpl] is entered at most once for each subscription stored,
    and so are [onCompleteImpl] and the producer's [cancel] together: the
    one excludes the other; the complete callback is called from
    [onCompleteImpl] only. *)
Theorem once_per_subscription (T : Type) (NDEBUG : bool) (cls : derived)
    (k : script T) (batch : Z) :
  count is_onTerminateImpl (trace_of (run NDEBUG cls k (Base_new batch)))
  <= count is_onSubscribeImpl (trace_of (run NDEBUG cls k (Base_new batch)))
  /\ count is_onCompleteImpl (trace_of (run NDEBUG cls k (Base_new batch)))
     + count is_producer_cancel (trace_of (run NDEBUG cls k (Base_new batch)))
     <= count is_onSubscribeImpl (trace_of (run NDEBUG cls k (Base_new batch)))
  /\ count is_complete_callback (trace_of (run NDEBUG cls k (Base_new batch)))
     <= count is_onCompleteImpl (trace_of (run NDEBUG cls k (Base_new batch))).
Proof.
  pose proof (run_claiming T NDEBUG cls k (Base_new batch)) as H.
  destruct (run NDEBUG cls k (Base_new batch)) as [[r o] tr].
  unfold trace_of. cbn [snd]. destruct H as (H1 & H2 & H3).
  unfold present in H1, H2. cbn [Base_new super subscription_ is_some] in H1, H2.
  destruct (is_some (subscription_ (super o))); lia.
Qed.

(** X3: in a debug build [onSubscribe] stores a subscription at most once
    in any run, so that [onTerminateImpl], the producer's [cancel] and the
    complete callback each happen at most once, whatever the foreign code
    does. *)
Theorem debug_build_subscribes_once (T : Type) (cls : derived) (k : script T)
    (batch : Z) :
  count is_onSubscribeImpl (trace_of (run false cls k (Base_new batch))) <= 1
  /\ count is_onTerminateImpl (trace_of (run false cls k (Base_new batch))) <= 1
  /\ count is_producer_cancel (trace_of (run false cls k (Base_new batch))) <= 1
  /\ count is_complete_callback (trace_of (run false cls k (Base_new batch))) <= 1.
Proof.
  pose proof (run_claiming T false cls k (Base_new batch)) as H.
  pose proof (run_latched T cls k (Base_new batch)) as L.
  destruct (run false cls k (Base_new batch)) as [[r o] tr].
  unfold trace_of. cbn [snd]. destruct H as (H1 & H2 & H3). destruct L as (L & _).
  unfold present in H1, H2. cbn [Base_new super subscription_ is_some] in H1, H2.
  pose proof (subscribed_le_1 o). unfold subscribed in L at 1.
  cbn [Base_new super gotOnSubscribe_ Z.b2z] in L.
  pose proof (count_nonneg is_onCompleteImpl tr).
  pose proof (count_nonneg is_producer_cancel tr).
  destruct (is_some (subscription_ (super o))); lia.
Qed.

(** X4: a release build aborts in [onSubscribe] only: whatever the state of
    the object, signals, [cancel] and [request], in any order and nesting,
    before the subscription, after the end or twice over, never abort the
    process, and return when no foreign code throws. *)
Theorem release_build_tolerates (T : Type) (cls : derived) (k : script T)
    (o : Base) :
  no_subscribe k = true ->
  fst (fst (run true cls k o)) <> Aborted
  /\ (nothrow k = true -> fst (fst (run true cls k o)) = Done tt).
Proof.
  intros Hk. pose proof (run_never_aborts T cls k Hk o) as Ha.
  split; [exact Ha|]. intros Hn.
  pose proof (nothrow_clean T true cls k Hn o) as Hc.
  destruct (run true cls k o) as [[r o'] tr]. cbn [fst] in *.
  destruct Hc as (Hr & _).
  destruct r as [[]|x|]; [reflexivity| |].
  - exfalso. exact (Hr x eq_refl).
  - exfalso. apply Ha. reflexivity.
Qed.

Lemma release_build_tolerates_witness :
  no_subscribe (deliver [1; 2] (Do (Call OnComplete quiet)
                                   (Do (Call (OnError (Wrap "late"%string)) quiet)
                                       (Do (Call Cancel quiet) Return)))) = true
  /\ fst (fst (run true Custom
                   (deliver [1; 2]
                      (Do (Call OnComplete quiet)
                          (Do (Call (OnError (Wrap "late"%string)) quiet)
                              (Do (Call Cancel quiet) Return))))
                   (Base_new 0))) <> Aborted.
Proof.
  split; [reflexivity|].
  exact (proj1 (release_build_tolerates Z Custom
                  (deliver [1; 2]
                     (Do (Call OnComplete quiet)
                         (Do (Call (OnError (Wrap "late"%string)) quiet)
                             (Do (Call Cancel quiet) Return))))
                  (Base_new 0) eq_refl)).
Defined.

(** X5: [onSubscribe] aborts the process, storing nothing and entering
    nothing, when the subscription is null or the slot already holds one,
    in every build, and in a debug build when a subscription was stored
    before. *)
Theorem onSubscribe_rejected (T : Type) (NDEBUG : bool) (cls : derived)
    (foreign : ext -> M T Base unit) (sub : option Subscription) (o : Base) :
  sub = None
  \/ subscription_ (super o) <> None
  \/ (NDEBUG = false /\ gotOnSubscribe_ (super o) = true) ->
  onSubscribe T NDEBUG cls foreign sub o = (Aborted, o, []).
Proof.
  intros H. destruct o as [[sl g1 g2] bt p].
  cbn [super subscription_ gotOnSubscribe_] in H.
  destruct H as [-> | [H | [-> ->]]].
  - reflexivity.
  - destruct sl as [s0|]; [|exfalso; apply H; reflexivity].
    destruct sub; reflexivity.
  - destruct sub; [|reflexivity]. destruct sl; reflexivity.
Qed.

Lemma onSubscribe_rejected_witness :
  (Some 8%nat = None
   \/ subscription_ (super (set_subscription_ (Some 7%nat) (Base_new 4))) <> None
   \/ (true = false
       /\ gotOnSubscribe_ (super (set_subscription_ (Some 7%nat) (Base_new 4)))
          = true))
  /\ onSubscribe Z true details_Base (fun _ => ret tt) (Some 8%nat)
       (set_subscription_ (Some 7%nat) (Base_new 4))
     = (Aborted, set_subscription_ (Some 7%nat) (Base_new 4), []).
Proof.
  assert (H : Some 8%nat = None
              \/ subscription_
                   (super (set_subscription_ (Some 7%nat) (Base_new 4))) <> None
              \/ (true = false
                  /\ gotOnSubscribe_
                       (super (set_subscription_ (Some 7%nat) (Base_new 4)))
                     = true)).
  { right. left. discriminate. }
  split; [exact H|].
  exact (onSubscribe_rejected Z true details_Base (fun _ => ret tt)
           (Some 8%nat) (set_subscription_ (Some 7%nat) (Base_new 4)) H).
Defined.

(** X6: in a debug build a signal that arrives before any subscription was
    stored aborts the process: [onNext], [onComplete] and [onError] enter
    nothing and leave the object as it is. *)
Theorem debug_build_asserts_subscribed (T : Type) (cls : derived)
    (foreign : ext -> M T Base unit) (t : T) (e : exception_wrapper)
    (o : Base) :
  gotOnSubscribe_ (super o) = false ->
  onNext T false cls foreign t o = (Aborted, o, [])
  /\ onComplete T false cls foreign o = (Aborted, o, [])
  /\ onError T false cls foreign e o = (Aborted, o, []).
Proof.
  intros H. destruct o as [[sl g1 g2] bt p].
  cbn [super gotOnSubscribe_] in H. subst g1. repeat split.
Qed.

Lemma debug_build_asserts_subscribed_witness :
  gotOnSubscribe_ (super (Base_new 4)) = false
  /\ onNext Z false details_Base (fun _ => ret tt) 5 (Base_new 4)
     = (Aborted, Base_new 4, []).
Proof.
  split; [reflexivity|].
  exact (proj1 (debug_build_asserts_subscribed Z details_Base
                  (fun _ => ret tt) 5 (Wrap "e"%string) (Base_new 4) eq_refl)).
Defined.

(** ** A second terminal signal in a debug build *)

Section Duplicate.

Variable T : Type.

Lemma terminal_signal_sets_flag cls foreign (t : op T) :
  is_terminal_signal t = true ->
  (forall x, latched (foreign x)) ->
  forall o,
    match BaseSubscriber_dispatch T false cls foreign t o with
    | (r, o', _) => r = Done tt -> terminating o' = 1
    end.
Proof.
  intros Ht Hf s. unfold latched, latches in *.
  destruct t; try discriminate Ht; unfold_methods; unfold_monad; destruct cls.
  all: crank foreign Hf.
  all: intros E; try discriminate E.
  all: tally_flags.
Qed.

Lemma terminal_signal_after_flag cls foreign (t : op T) (o : Base) :
  is_terminal_signal t = true ->
  gotTerminating_ (super o) = true ->
  BaseSubscriber_dispatch T false cls foreign t o = (Aborted, o, []).
Proof.
  intros Ht Hg. destruct o as [[sl g1 g2] bt p].
  cbn [super gotTerminating_] in Hg. subst g2.
  destruct t; try discriminate Ht; destruct g1; reflexivity.
Qed.

Lemma run_Do NDEBUG cls (t : op T) (env : ext -> script T) (k : script T)
    (o : Base) :
  run NDEBUG cls (Do (Call t env) k) o
  = (BaseSubscriber_dispatch T NDEBUG cls (fun x => run NDEBUG cls (env x)) t ;;
     run NDEBUG cls k) o.
Proof. reflexivity. Qed.

End Duplicate.

(** X7: in a debug build, when a terminal signal ([onComplete] or
    [onError]) has returned, the next terminal signal aborts the process
    and enters nothing, whatever the subclass and the foreign code. *)
Theorem debug_build_rejects_second_terminal (T : Type) (cls : derived)
    (t1 t2 : op T) (env1 env2 : ext -> script T) (k : script T)
    (o o1 : Base) (tr1 : list (event T)) :
  is_terminal_signal t1 = true ->
  is_terminal_signal t2 = true ->
  run false cls (Do (Call t1 env1) Return) o = (Done tt, o1, tr1) ->
  run false cls (Do (Call t1 env1) (Do (Call t2 env2) k)) o
  = (Aborted, o1, tr1).
Proof.
  intros H1 H2 Hrun. rewrite run_Do in *.
  pose proof (terminal_signal_sets_flag T cls _ t1 H1
                (fun x => run_latched T cls (env1 x)) o) as Hflag.
  unfold bind in *.
  destruct (BaseSubscriber_dispatch T false cls
              (fun x => run false cls (env1 x)) t1 o)
    as [[[[]|x|] o1'] tr1']; try discriminate Hrun.
  change (run false cls Return o1') with (Done tt, o1', @nil (event T)) in Hrun.
  injection Hrun as -> E. rewrite app_nil_r in E. subst tr1'.
  specialize (Hflag eq_refl). unfold terminating in Hflag.
  assert (Hg : gotTerminating_ (super o1) = true)
    by (destruct (gotTerminating_ (super o1)); [reflexivity|discriminate Hflag]).
  rewrite run_Do. unfold bind.
  rewrite (terminal_signal_after_flag T cls _ t2 o1 H2 Hg).
  rewrite app_nil_r. reflexivity.
Qed.

Lemma debug_build_rejects_second_terminal_witness :
  is_terminal_signal (@OnComplete Z) = true
  /\ is_terminal_signal (@OnError Z (Wrap "late"%string)) = true
  /\ @run Z false details_Base (Do (Call OnComplete quiet) Return)
         (set_gotOnSubscribe_ true (set_subscription_ (Some 7%nat) (Base_new 4)))
     = (Done tt,
        set_gotTerminating_ true (set_gotOnSubscribe_ true (Base_new 4)),
        [EvOnCompleteImpl; EvOnTerminateImpl])
  /\ @run Z false details_Base
         (Do (Call OnComplete quiet)
             (Do (Call (OnError (Wrap "late"%string)) quiet) Return))
         (set_gotOnSubscribe_ true (set_subscription_ (Some 7%nat) (Base_new 4)))
     = (Aborted,
        set_gotTerminating_ true (set_gotOnSubscribe_ true (Base_new 4)),
        [EvOnCompleteImpl; EvOnTerminateImpl]).
Proof.
  split; [reflexivity|]. split; [reflexivity|]. split; [reflexivity|].
  exact (debug_build_rejects_second_terminal Z details_Base OnComplete
           (OnError (Wrap "late"%string)) quiet quiet Return
           (set_gotOnSubscribe_ true (set_subscription_ (Some 7%nat) (Base_new 4)))
           _ _ eq_refl eq_refl eq_refl).
Defined.

(** ** What the adapter asks for when it refills *)

Lemma even_refills_granted {T} (b : Z) (tr : list (event T)) :
  count (odd_refill b) tr = 0 ->
  granted tr = least_refill b * count is_request tr.
Proof.
  induction tr as [|e tr IH]; intros H; [cbn; lia|].
  rewrite count_cons in H. pose proof (count_nonneg (odd_refill b) tr).
  rewrite granted_cons, count_cons.
  destruct e; cbn [odd_refill is_request] in *;
    try (specialize (IH ltac:(lia)); lia).
  destruct (Z.eqb_spec n (least_refill b)); cbn [negb] in H; [|lia].
  specialize (IH ltac:(lia)). lia.
Qed.

Lemma even_refills_grants {T} (b : Z) (tr : list (event T)) :
  count (odd_refill b) tr = 0 ->
  grants tr = repeat (least_refill b) (List.length (grants tr)).
Proof.
  induction tr as [|e tr IH]; intros H; [reflexivity|].
  rewrite count_cons in H. pose proof (count_nonneg (odd_refill b) tr).
  destruct e; cbn [odd_refill grants] in *;
    try (apply IH; lia).
  destruct (Z.eqb_spec n (least_refill b)); cbn [negb] in H; [|lia].
  cbn [List.length repeat]. f_equal; [assumption|apply IH; lia].
Qed.

Lemma requests_are_grants {T} (tr : list (event T)) :
  count is_request tr = Z.of_nat (List.length (grants tr)).
Proof.
  induction tr as [|e tr IH]; [reflexivity|].
  rewrite count_cons.
  destruct e; cbn [is_request grants List.length]; lia.
Qed.

Lemma granted_in_bounds {T} (b : Z) (tr : list (event T)) :
  count (out_of_bounds b) tr = 0 -> granted tr <= b * count is_request tr.
Proof.
  induction tr as [|e tr IH]; intros H; [cbn; lia|].
  rewrite count_cons in H. pose proof (count_nonneg (out_of_bounds b) tr).
  rewrite granted_cons, count_cons.
  destruct e; cbn [out_of_bounds is_request] in *;
    try (specialize (IH ltac:(lia)); lia).
  destruct (half_up b <=? n) eqn:E1; destruct (n <=? b) eqn:E2;
    cbn [andb negb] in H; try lia.
Qed.

Ltac count_refills :=
  repeat (rewrite ?count_app, ?count_cons, ?count_nil; cbn [odd_refill]);
  unfold least_refill in *;
  repeat match goal with
         | |- context [?a =? ?c] => destruct (Z.eqb_spec a c)
         end;
  cbn [negb].

Section Refill.

Variable T : Type.
Variable b : Z.
Hypothesis b_pos : 0 < b.
Hypothesis b_max : b <= INT64_MAX.

(** The state that a call of the foreign code starts in is in the window;
    keep what the call is known to do to the credit and to ask for. *)
Ltac use_refill H :=
  let Hret := fresh "Hret" in
  destruct H as [Hret H];
  try (exfalso; exact (Hret eq_refl _ eq_refl));
  clear Hret;
  match type of H with
  | ?P -> _ =>
      let W := fresh "W" in
      assert (W : P) by (split; credit_arith);
      specialize (H W); clear W
  end;
  let A := fresh "A" in
  let B := fresh "B" in
  let S := fresh "S" in
  destruct H as [[A B] S]; clear B;
  first [ specialize (A ltac:(discriminate)) | clear A ].

Lemma dispatch_refills_evenly NDEBUG cls foreign (o : op T) :
  is_adapter cls = true -> is_signal o = true ->
  returns (foreign NextCb) ->
  (forall x, credit_ok b (foreign x)) ->
  (forall x, refills_evenly b (foreign x)) ->
  refills_evenly b (BaseSubscriber_dispatch T NDEBUG cls foreign o).
Proof.
  intros Ha Hs Hn Hc Hf.
  assert (Hf' : forall x o,
             match foreign x o with
             | (r, o', tr) =>
                 (x = NextCb -> forall y, r <> Raised y)
                 /\ (window b o ->
                     credit_result b o r o' tr
                     /\ count (odd_refill b) tr = 0)
             end).
  { intros x o'. specialize (Hf x o'). specialize (Hc x o'). specialize (Hn o').
    destruct (foreign x o') as [[r o''] tr] eqn:E. split.
    - intros -> y. specialize (Hn y). rewrite E in Hn. exact Hn.
    - intros W. split; [exact (Hc W)|exact (Hf W)]. }
  clear Hf Hn Hc.
  intros s Hw. unfold credit_result, window in *.
  destruct o; try discriminate Hs; destruct cls; try discriminate Ha;
    unfold_methods; unfold_monad; destruct NDEBUG.
  all: crank_with foreign Hf' ltac:(fun H => use_refill H).
  all: prepare; count_refills; lia.
Qed.

(** The first subscription asks for the whole batch, and whatever is asked
    for from inside that call is a refill. *)
Lemma onSubscribe_refills_evenly NDEBUG cls foreign (sub : option Subscription) :
  is_adapter cls = true ->
  (forall x, credit_ok b (foreign x)) ->
  (forall x, refills_evenly b (foreign x)) ->
  forall o, batch_ o = b -> pending_ o = 0 ->
    match onSubscribe T NDEBUG cls foreign sub o with
    | (r, _, tr) =>
        (r = Aborted /\ tr = [])
        \/ exists tr', tr = EvOnSubscribeImpl :: EvRequest b :: tr'
                       /\ count (odd_refill b) tr' = 0
    end.
Proof.
  intros Ha Hc Hf.
  assert (Hf' : forall x o,
             match foreign x o with
             | (r, o', tr) =>
                 (x = NextCb -> x = SubRequest -> forall y, r <> Raised y)
                 /\ (window b o ->
                     credit_result b o r o' tr
                     /\ count (odd_refill b) tr = 0)
             end).
  { intros x o'. specialize (Hf x o'). specialize (Hc x o').
    destruct (foreign x o') as [[r o''] tr] eqn:E. split.
    - intros ->. discriminate.
    - intros W. split; [exact (Hc W)|exact (Hf W)]. }
  clear Hf Hc.
  intros s Hb Hp. unfold credit_result, window in *.
  destruct cls; try discriminate Ha;
    unfold_methods; unfold_monad; destruct NDEBUG.
  all: crank_with foreign Hf' ltac:(fun H => use_refill H).
  all: first [ left; split; reflexivity | right ].
  all: prepare; eexists; (split; [reflexivity|]).
  all: count_refills; lia.
Qed.

Lemma refills_evenly_bind (m k : M T Base unit) :
  credit_ok b m -> refills_evenly b m -> refills_evenly b k ->
  refills_evenly b (m ;; k).
Proof.
  intros Hc Hm Hk o Hw. unfold bind.
  specialize (Hm o Hw). specialize (Hc o Hw).
  destruct (m o) as [[[[]|x|] o1] tr1]; try exact Hm.
  destruct Hc as [A _]. specialize (A ltac:(discriminate)). destruct A as [W1 _].
  specialize (Hk o1 W1). destruct (k o1) as [[r o2] tr2].
  rewrite count_app. lia.
Qed.

Lemma refills_evenly_swallow (m : M T Base unit) :
  refills_evenly b m -> refills_evenly b (swallow m).
Proof.
  intros Hm o Hw. unfold swallow. specialize (Hm o Hw).
  destruct (m o) as [[[[]|x|] o1] tr1]; exact Hm.
Qed.

Lemma run_refills_evenly NDEBUG cls (k : script T) :
  is_adapter cls = true ->
  next_returns k = true -> signals_only k = true ->
  refills_evenly b (run NDEBUG cls k).
Proof.
  intros Ha. unfold run, next_returns, signals_only.
  induction k using script_mut
    with (P0 := fun c =>
            every_call (fun _ env => nothrow (env NextCb)) c = true ->
            every_call (fun o _ => is_signal o) c = true ->
            refills_evenly b
              (run_call T Base (BaseSubscriber_dispatch T NDEBUG cls) c)
            /\ credit_ok b
                 (run_call T Base (BaseSubscriber_dispatch T NDEBUG cls) c));
    cbn [run_script run_call every every_call]; intros Hn Hs.
  - intros o Hw. reflexivity.
  - intros o Hw. reflexivity.
  - apply andb_prop in Hn, Hs. destruct Hn as [Hn1 Hn2], Hs as [Hs1 Hs2].
    destruct (IHk Hn1 Hs1) as [R1 C1].
    apply refills_evenly_bind; auto.
  - apply andb_prop in Hn, Hs. destruct Hn as [Hn1 Hn2], Hs as [Hs1 Hs2].
    destruct (IHk Hn1 Hs1) as [R1 C1].
    apply refills_evenly_bind;
      [apply credit_ok_swallow; assumption
      |apply refills_evenly_swallow; assumption|auto].
  - apply andb_prop in Hn, Hs. destruct Hn as [Hn1 Hn2], Hs as [Hs1 Hs2].
    assert (Hn' : forall x, every (fun _ env0 => nothrow (env0 NextCb)) (env x) = true)
      by (apply (forallb_exts (fun x => every _ (env x))); exact Hn2).
    assert (Hs' : forall x, every (fun o0 _ => is_signal o0) (env x) = true)
      by (apply (forallb_exts (fun x => every _ (env x))); exact Hs2).
    assert (Hret : returns (fun s => run_script T Base
                      (BaseSubscriber_dispatch T NDEBUG cls) (env NextCb) s))
      by (apply (nothrow_returns T NDEBUG cls); exact Hn1).
    assert (Hc : forall x, credit_ok b (run_script T Base
                      (BaseSubscriber_dispatch T NDEBUG cls) (env x)))
      by (intros x; apply (run_credit_ok T b b_pos b_max NDEBUG cls (env x) Ha);
          [apply Hn'|apply Hs']).
    split.
    + apply dispatch_refills_evenly; auto.
    + apply dispatch_credit_ok; auto.
Qed.

(** A run driven by a producer, from the adapter as constructed. *)
Lemma producer_run_refills NDEBUG cls (k : script T) :
  is_adapter cls = true ->
  producer_run k = true -> next_returns k = true ->
  match run NDEBUG cls k (Base_new b) with
  | (r, _, tr) =>
      (r = Aborted /\ tr = [])
      \/ exists tr', tr = EvOnSubscribeImpl :: EvRequest b :: tr'
                     /\ count (odd_refill b) tr' = 0
  end.
Proof.
  intros Ha Hp Hn.
  destruct k as [| |[[sub| | | | |] env] k'|]; try discriminate Hp.
  cbn [producer_run] in Hp. apply andb_prop in Hp. destruct Hp as [Hp1 Hp2].
  unfold next_returns in Hn. cbn [every every_call] in Hn.
  apply andb_prop in Hn. destruct Hn as [Hn1 Hn3].
  apply andb_prop in Hn1. destruct Hn1 as [_ Hn2].
  assert (Hn' : forall x, next_returns (env x) = true)
    by (apply (forallb_exts (fun x => every _ (env x))); exact Hn2).
  assert (Hs' : forall x, signals_only (env x) = true)
    by (apply (forallb_exts (fun x => signals_only (env x))); exact Hp1).
  rewrite run_Do.
  pose proof (onSubscribe_refills_evenly NDEBUG cls
                (fun x => run NDEBUG cls (env x)) sub Ha
                (fun x => run_credit_ok T b b_pos b_max NDEBUG cls (env x) Ha
                            (Hn' x) (Hs' x))
                (fun x => run_refills_evenly NDEBUG cls (env x) Ha
                            (Hn' x) (Hs' x))
                (Base_new b) eq_refl eq_refl) as H1.
  pose proof (onSubscribe_credit_ok T b b_pos b_max NDEBUG cls
                (fun x => run NDEBUG cls (env x)) sub Ha
                (fun x => run_credit_ok T b b_pos b_max NDEBUG cls (env x) Ha
                            (Hn' x) (Hs' x))
                (Base_new b) eq_refl eq_refl) as C1.
  pose proof (run_refills_evenly NDEBUG cls k' Ha Hn3 Hp2) as H2.
  unfold bind. cbn [BaseSubscriber_dispatch].
  destruct (onSubscribe T NDEBUG cls (fun x => run NDEBUG cls (env x)) sub
              (Base_new b)) as [[r1 o1] tr1].
  destruct H1 as [[-> ->]|(tr' & -> & H1)]; [left; split; reflexivity|].
  destruct r1 as [[]|x|];
    try (right; exists tr'; split; [reflexivity|exact H1]).
  destruct C1 as [A1 _]. specialize (A1 ltac:(discriminate)).
  destruct A1 as [W1 _]. specialize (H2 o1 W1).
  destruct (run NDEBUG cls k' o1) as [[r o2] tr2].
  right. exists (tr' ++ tr2). split; [reflexivity|].
  rewrite count_app. lia.
Qed.

End Refill.

(** X8: an adapter made with a batch size within range and driven by a
    producer asks for the whole batch when the subscription arrives and
    for exactly [batch - batch / 2 + 1] at every refill after that,
    whatever the producer and the callbacks do; and when the run does not
    abort the first request is there. *)
Theorem refills_ask_for_the_same (T : Type) (NDEBUG : bool) (cls : derived)
    (k : script T) (batch : Z) :
  is_adapter cls = true ->
  0 < batch -> batch <= INT64_MAX ->
  producer_run k = true -> next_returns k = true ->
  (grants (trace_of (run NDEBUG cls k (Base_new batch))) = []
   \/ grants (trace_of (run NDEBUG cls k (Base_new batch)))
      = batch :: repeat (least_refill batch)
                   (List.length
                      (grants (trace_of (run NDEBUG cls k (Base_new batch))))
                    - 1))
  /\ (fst (fst (run NDEBUG cls k (Base_new batch))) <> Aborted ->
      grants (trace_of (run NDEBUG cls k (Base_new batch))) <> []).
Proof.
  intros Ha Hb1 Hb2 Hp Hn.
  pose proof (producer_run_refills T batch Hb1 Hb2 NDEBUG cls k Ha Hp Hn) as H.
  destruct (run NDEBUG cls k (Base_new batch)) as [[r o] tr].
  unfold trace_of. cbn [fst snd].
  destruct H as [[-> ->]|(tr' & -> & H)].
  - split; [left; reflexivity|]. intros Hr. exfalso. apply Hr. reflexivity.
  - cbn [grants List.length]. split; [right|discriminate].
    rewrite Nat.sub_succ, Nat.sub_0_r. f_equal.
    apply even_refills_grants. exact H.
Qed.

Lemma refills_ask_for_the_same_witness :
  is_adapter details_Base = true
  /\ 0 < 4 /\ 4 <= INT64_MAX
  /\ producer_run (finite_stream 7%nat [1; 2; 3; 4; 5; 6]) = true
  /\ next_returns (finite_stream 7%nat [1; 2; 3; 4; 5; 6]) = true
  /\ (grants (trace_of (run true details_Base
                         (finite_stream 7%nat [1; 2; 3; 4; 5; 6])
                         (Base_new 4))) = []
   \/ grants (trace_of (run true details_Base
                            (finite_stream 7%nat [1; 2; 3; 4; 5; 6])
                            (Base_new 4)))
      = 4 :: repeat (least_refill 4)
               (List.length
                  (grants (trace_of (run true details_Base
                                         (finite_stream 7%nat [1; 2; 3; 4; 5; 6])
                                         (Base_new 4))))
                - 1))
  /\ grants (trace_of (run true details_Base
                           (finite_stream 7%nat [1; 2; 3; 4; 5; 6])
                           (Base_new 4))) = [4; 3; 3].
Proof.
  assert (Hm : 4 <= INT64_MAX) by (unfold INT64_MAX; lia).
  repeat (split; [first [reflexivity | lia | exact Hm]|]).
  split; [|reflexivity].
  apply (refills_ask_for_the_same Z true details_Base
           (finite_stream 7%nat [1; 2; 3; 4; 5; 6]) 4);
    first [reflexivity | lia | exact Hm].
Defined.

(** X9: in a run that does not abort, the values delivered and the credit
    still outstanding add up to the batch and one refill for every call of
    [request] after the first; so [request] is called once only as long as
    fewer than [batch - batch / 2 + 1] values have arrived. *)
Theorem deliveries_counted_by_refills (T : Type) (NDEBUG : bool)
    (cls : derived) (k : script T) (batch : Z) (r : outcome unit) (o : Base)
    (tr : list (event T)) :
  is_adapter cls = true ->
  0 < batch -> batch <= INT64_MAX ->
  producer_run k = true -> next_returns k = true ->
  run NDEBUG cls k (Base_new batch) = (r, o, tr) ->
  r <> Aborted ->
  count is_onNextImpl tr + pending_ o
  = batch + least_refill batch * (count is_request tr - 1)
  /\ (count is_onNextImpl tr < least_refill batch -> count is_request tr = 1).
Proof.
  intros Ha Hb1 Hb2 Hp Hn Hrun Hr.
  pose proof (producer_run_refills T batch Hb1 Hb2 NDEBUG cls k Ha Hp Hn) as H.
  pose proof (producer_run_credit T batch Hb1 Hb2 NDEBUG cls k Ha Hp Hn) as C.
  rewrite Hrun in H, C.
  destruct H as [[-> _]|(tr' & -> & H)]; [exfalso; apply Hr; reflexivity|].
  destruct C as [C _]. specialize (C Hr). destruct C as [[_ W] C].
  cbn [pending_ Base_new] in C.
  pose proof (even_refills_granted batch tr' H) as G.
  pose proof (count_nonneg is_request tr') as N.
  pose proof (half_bounds batch Hb1) as Hh.
  rewrite !granted_cons, !delivered_cons in C. cbn [is_onNextImpl] in C.
  rewrite !count_cons. cbn [is_request is_onNextImpl].
  unfold least_refill in *.
  split; [lia|]. intros Hd.
  assert (E : count is_request tr' = 0 \/ 1 <= count is_request tr') by lia.
  destruct E as [E|E]; [lia|]. exfalso.
  assert (batch - batch ÷ 2 + 1
          <= (batch - batch ÷ 2 + 1) * count is_request tr') by nia.
  lia.
Qed.

Lemma deliveries_counted_by_refills_witness :
  is_adapter details_WithError = true
  /\ 0 < 4 /\ 4 <= INT64_MAX
  /\ producer_run (finite_stream 7%nat [1; 2; 3; 4; 5; 6]) = true
  /\ next_returns (finite_stream 7%nat [1; 2; 3; 4; 5; 6]) = true
  /\ fst (fst (run true details_WithError
                    (finite_stream 7%nat [1; 2; 3; 4; 5; 6]) (Base_new 4)))
     = Done tt
  /\ count is_onNextImpl
    (trace_of (run true details_WithError
                   (finite_stream 7%nat [1; 2; 3; 4; 5; 6]) (Base_new 4)))
  + pending_ (snd (fst (run true details_WithError
                            (finite_stream 7%nat [1; 2; 3; 4; 5; 6])
                            (Base_new 4))))
  = 4 + least_refill 4
        * (count is_request
             (trace_of (run true details_WithError
                            (finite_stream 7%nat [1; 2; 3; 4; 5; 6])
                            (Base_new 4))) - 1).
Proof.
  assert (Hm : 4 <= INT64_MAX) by (unfold INT64_MAX; lia).
  repeat (split; [first [reflexivity | lia | exact Hm]|]).
  refine (proj1 (deliveries_counted_by_refills Z true details_WithError
                   (finite_stream 7%nat [1; 2; 3; 4; 5; 6]) 4 (Done tt) _ _
                   _ _ _ _ _ _ _));
    first [reflexivity | lia | discriminate | exact Hm].
Defined.

(** X10: with a batch size of 1 the adapter never refills a producer that
    keeps to its credit: [request] is called once, with 1, and after the
    one value it allows nothing more is asked for. *)
Theorem batch_of_one_stalls (T : Type) (NDEBUG : bool) (cls : derived)
    (k : script T) (r : outcome unit) (o : Base) (tr : list (event T)) :
  is_adapter cls = true ->
  producer_run k = true -> next_returns k = true ->
  run NDEBUG cls k (Base_new 1) = (r, o, tr) ->
  r <> Aborted ->
  compliant 0 tr = true ->
  grants tr = [1] /\ count is_onNextImpl tr <= 1.
Proof.
  intros Ha Hp Hn Hrun Hr Hc.
  assert (Hb1 : 0 < 1) by lia.
  assert (Hb2 : 1 <= INT64_MAX) by (unfold INT64_MAX; lia).
  pose proof (producer_run_refills T 1 Hb1 Hb2 NDEBUG cls k Ha Hp Hn) as H.
  pose proof (producer_run_credit T 1 Hb1 Hb2 NDEBUG cls k Ha Hp Hn) as C.
  rewrite Hrun in H, C.
  destruct H as [[-> _]|(tr' & -> & H)]; [exfalso; apply Hr; reflexivity|].
  destruct C as [C B]. specialize (C Hr). destruct C as [[_ W] C].
  cbn [pending_ Base_new] in C, B.
  specialize (B 0 ltac:(lia) Hc). destruct B as [B _].
  pose proof (even_refills_granted 1 tr' H) as G.
  pose proof (count_nonneg is_request tr') as N.
  pose proof (count_nonneg (out_of_bounds 1) tr') as N'.
  rewrite !count_cons in B. cbn [out_of_bounds] in B.
  assert (B' : count (out_of_bounds 1) tr' = 0).
  { destruct (negb ((half_up 1 <=? 1) && (1 <=? 1))); lia. }
  pose proof (granted_in_bounds 1 tr' B') as G'.
  change (least_refill 1) with 2 in G.
  assert (R0 : count is_request tr' = 0) by lia.
  rewrite !granted_cons, !delivered_cons in C. cbn [is_onNextImpl] in C.
  rewrite !count_cons. cbn [is_onNextImpl grants].
  change (1 ÷ 2) with 0 in W.
  split; [|lia].
  f_equal. rewrite requests_are_grants in R0.
  destruct (grants tr'); [reflexivity|cbn [List.length] in R0; lia].
Qed.

Lemma batch_of_one_stalls_witness :
  is_adapter details_Base = true
  /\ producer_run (finite_stream 7%nat [5]) = true
  /\ next_returns (finite_stream 7%nat [5]) = true
  /\ fst (fst (run true details_Base (finite_stream 7%nat [5]) (Base_new 1)))
     = Done tt
  /\ compliant 0 (trace_of (run true details_Base (finite_stream 7%nat [5])
                                (Base_new 1))) = true
  /\ grants (trace_of (run true details_Base (finite_stream 7%nat [5]) (Base_new 1)))
  = [1]
  /\ count is_onNextImpl
       (trace_of (run true details_Base (finite_stream 7%nat [5]) (Base_new 1)))
     <= 1.
Proof.
  do 5 (split; [reflexivity|]).
  refine (batch_of_one_stalls Z true details_Base (finite_stream 7%nat [5])
            (Done tt) _ _ _ _ _ _ _ _);
    first [reflexivity | discriminate].
Defined.

(** ** What a release build does with the exceptions of the callables *)

Section Containment.

Variable T : Type.

Ltac use_contained H :=
  cbn [fst] in H;
  try (exfalso; exact (H _ eq_refl));
  try (exfalso; destruct (H _ eq_refl) as [? ?]; discriminate).

Lemma dispatch_contains cls foreign (o : op T) :
  is_adapter cls = true ->
  never_raises (foreign SubRequest) -> never_raises (foreign SubCancel) ->
  (forall x, is_callback x = true -> raises_std (foreign x)) ->
  never_raises (BaseSubscriber_dispatch T true cls foreign o).
Proof.
  intros Ha Hr Hc Hs.
  assert (Hf : forall x s,
             match x with
             | SubRequest | SubCancel =>
                 forall y, fst (fst (foreign x s)) <> Raised y
             | NextCb | ErrorCb | CompleteCb =>
                 forall y, fst (fst (foreign x s)) = Raised y ->
                           exists exn, y = StdException exn
             | _ => True
             end).
  { intros x s. destruct x; try exact I;
      first [apply Hr | apply Hc | apply Hs; reflexivity]. }
  clear Hr Hc Hs.
  intros s y.
  destruct o; destruct cls; try discriminate Ha;
    unfold_methods; unfold_monad.
  all: crank_with foreign Hf ltac:(fun H => use_contained H).
  all: discriminate.
Qed.

Lemma never_raises_bind (m k : M T Base unit) :
  never_raises m -> never_raises k -> never_raises (m ;; k).
Proof.
  intros Hm Hk o x. unfold bind. specialize (Hm o).
  destruct (m o) as [[[[]|y|] o1] tr1]; cbn [fst] in *;
    [|exfalso; exact (Hm y eq_refl)|discriminate].
  specialize (Hk o1 x). destruct (k o1) as [[r o2] tr2]. exact Hk.
Qed.

Lemma raises_std_bind (m k : M T Base unit) :
  never_raises m -> raises_std k -> raises_std (m ;; k).
Proof.
  intros Hm Hk o x. unfold bind. specialize (Hm o).
  destruct (m o) as [[[[]|y|] o1] tr1]; cbn [fst] in *;
    [|exfalso; exact (Hm y eq_refl)|discriminate].
  specialize (Hk o1 x). destruct (k o1) as [[r o2] tr2]. exact Hk.
Qed.

Lemma never_raises_swallow (m : M T Base unit) : never_raises (swallow m).
Proof.
  intros o x. unfold swallow.
  destruct (m o) as [[[[]|y|] o1] tr1]; discriminate.
Qed.

Lemma run_contains cls (k : script T) :
  is_adapter cls = true -> contained k = true ->
  (ends_std k = true -> raises_std (run true cls k))
  /\ (spine_returns k = true -> never_raises (run true cls k)).
Proof.
  intros Ha. unfold run, contained.
  induction k using script_mut
    with (P0 := fun c =>
            every_call
              (fun _ env =>
                 spine_returns (env SubRequest) && spine_returns (env SubCancel)
                 && ends_std (env NextCb) && ends_std (env ErrorCb)
                 && ends_std (env CompleteCb)) c = true ->
            never_raises
              (run_call T Base (BaseSubscriber_dispatch T true cls) c));
    cbn [run_script run_call every every_call ends_std spine_returns];
    intros Hk.
  - split; intros _ o x; discriminate.
  - split; [|discriminate]. intros Hx o y.
    destruct x; try discriminate Hx. cbn. intros E. injection E as <-.
    eexists. reflexivity.
  - apply andb_prop in Hk. destruct Hk as [Hk1 Hk2].
    specialize (IHk Hk1). destruct (IHk0 Hk2) as [A B].
    split; intros H.
    + apply raises_std_bind; auto.
    + apply never_raises_bind; auto.
  - apply andb_prop in Hk. destruct Hk as [Hk1 Hk2].
    destruct (IHk0 Hk2) as [A B].
    split; intros H.
    + apply raises_std_bind; [apply never_raises_swallow|auto].
    + apply never_raises_bind; [apply never_raises_swallow|auto].
  - apply andb_prop in Hk. destruct Hk as [Hk1 Hk2].
    assert (Hk' : forall x, every
                    (fun _ env0 =>
                       spine_returns (env0 SubRequest)
                       && spine_returns (env0 SubCancel)
                       && ends_std (env0 NextCb) && ends_std (env0 ErrorCb)
                       && ends_std (env0 CompleteCb)) (env x) = true)
      by (apply (forallb_exts (fun x => every _ (env x))); exact Hk2).
    repeat (apply andb_prop in Hk1; destruct Hk1 as [Hk1 ?]).
    apply dispatch_contains; [exact Ha| | |].
    + apply (proj2 (H SubRequest (Hk' SubRequest))). assumption.
    + apply (proj2 (H SubCancel (Hk' SubCancel))). assumption.
    + intros x Hx. apply (proj1 (H x (Hk' x))).
      destruct x; try discriminate Hx; assumption.
Qed.

End Containment.

(** ** The slot after a terminal dispatch *)

Section LettingGo.

Variable T : Type.

Lemma dispatch_letting_go NDEBUG cls foreign (o : op T) :
  (forall x, letting_go (foreign x)) ->
  letting_go (BaseSubscriber_dispatch T NDEBUG cls foreign o).
Proof.
  intros Hf s. unfold letting_go, lets_go in *.
  destruct o; unfold_methods; unfold_monad; destruct cls; destruct NDEBUG.
  all: crank foreign Hf.
  all: tally_more.
Qed.

Lemma run_letting_go NDEBUG cls (k : script T) : letting_go (run NDEBUG cls k).
Proof.
  refine (run_holds T NDEBUG cls lets_go _ _ _ k).
  - intros o. unfold lets_go. count_more. lia.
  - intros o1 o2 o3 tr1 tr2 H1 H2. unfold lets_go in *. count_more.
    pose proof (count_nonneg is_onSubscribeImpl tr1).
    pose proof (count_nonneg is_onSubscribeImpl tr2).
    pose proof (count_nonneg is_terminal_dispatch tr1).
    pose proof (count_nonneg is_terminal_dispatch tr2).
    assert (0 <= present o1 /\ 0 <= present o2 /\ 0 <= present o3)
      by (unfold present; destruct (is_some (subscription_ (super o1)));
          destruct (is_some (subscription_ (super o2)));
          destruct (is_some (subscription_ (super o3))); lia).
    intros Hs. specialize (H1 ltac:(lia)). specialize (H2 ltac:(lia)). lia.
  - intros foreign o Hf. apply dispatch_letting_go. exact Hf.
Qed.

End LettingGo.

(** X11: in a release build an adapter lets no exception out of any of its
    methods, in any order and nesting of the calls, as long as the
    callables given to the factory throw nothing but [std::exception] and
    the producer's [request] and [cancel] do not throw. *)
Theorem release_build_contains_callbacks (T : Type) (cls : derived)
    (k : script T) (o : Base) :
  is_adapter cls = true ->
  contained k = true -> spine_returns k = true ->
  forall x, fst (fst (run true cls k o)) <> Raised x.
Proof.
  intros Ha Hk Hs x.
  exact (proj2 (run_contains T cls k Ha Hk) Hs o x).
Qed.

Lemma release_build_contains_callbacks_witness :
  is_adapter details_WithErrorAndComplete = true
  /\ contained (Do (Call (OnSubscribe (Some 7%nat)) quiet)
                  (Do (Call (OnNext 1) callbacks_throw)
                      (Do (Call OnComplete callbacks_throw) Return))) = true
  /\ spine_returns (Do (Call (OnSubscribe (Some 7%nat)) quiet)
                      (Do (Call (OnNext 1) callbacks_throw)
                          (Do (Call OnComplete callbacks_throw) Return)))
     = true
  /\ forall x,
       fst (fst (run true details_WithErrorAndComplete
                     (Do (Call (OnSubscribe (Some 7%nat)) quiet)
                         (Do (Call (OnNext 1) callbacks_throw)
                             (Do (Call OnComplete callbacks_throw) Return)))
                     (Base_new 4))) <> Raised x.
Proof.
  do 3 (split; [reflexivity|]).
  apply (release_build_contains_callbacks Z details_WithErrorAndComplete
           (Do (Call (OnSubscribe (Some 7%nat)) quiet)
               (Do (Call (OnNext 1) callbacks_throw)
                   (Do (Call OnComplete callbacks_throw) Return)))
           (Base_new 4)); reflexivity.
Defined.

(** X12: when the error callback of an adapter that has one throws a
    [std::exception] out of [onError], the subscription has already been
    taken out of the slot; a release build logs, goes on to
    [onTerminateImpl] and returns; a debug build logs and throws the
    wrapped exception, and [onTerminateImpl] is not entered. *)
Theorem throwing_error_callback (T : Type) (NDEBUG : bool) (cls : derived)
    (foreign : ext -> M T Base unit) (e : exception_wrapper) (o o1 : Base)
    (s : Subscription) (exn : std_exception) (tr1 : list (event T)) :
  cls = details_WithError \/ cls = details_WithErrorAndComplete ->
  subscription_ (super o) = Some s ->
  (NDEBUG = false ->
   gotOnSubscribe_ (super o) = true /\ gotTerminating_ (super o) = false) ->
  foreign ErrorCb
    (set_subscription_ None (if NDEBUG then o else set_gotTerminating_ true o))
  = (Raised (StdException exn), o1, tr1) ->
  onError T NDEBUG cls foreign e o
  = if NDEBUG
    then (Done tt, o1,
          [EvOnErrorImpl e; EvError e] ++ tr1
          ++ [EvLogError ErrorCb exn; EvOnTerminateImpl])
    else (Raised (WrapperThrown (Wrap exn)), o1,
          [EvOnErrorImpl e; EvError e] ++ tr1 ++ [EvLogError ErrorCb exn]).
Proof.
  intros Hc Hs Hg H1.
  destruct o as [[sl g1 g2] bt p].
  cbn [super subscription_ gotOnSubscribe_ gotTerminating_] in Hs, Hg.
  subst sl.
  destruct NDEBUG.
  - destruct Hc as [-> | ->];
      unfold_methods; unfold_monad; fields; cbn [set_gotTerminating_] in H1;
      fields; rewrite H1; fields;
      rewrite <- ?app_assoc, ?app_nil_r; reflexivity.
  - destruct (Hg eq_refl) as [-> ->].
    destruct Hc as [-> | ->];
      unfold_methods; unfold_monad; fields; rewrite H1; fields;
      rewrite <- ?app_assoc, ?app_nil_r; reflexivity.
Qed.

Lemma throwing_error_callback_witness :
  (details_WithError = details_WithError
   \/ details_WithError = details_WithErrorAndComplete)
  /\ onError Z false details_WithError
       (fun x o => match x with
                   | ErrorCb => (Raised (StdException "E"%string), o, [])
                   | _ => (Done tt, o, [])
                   end)
       (Wrap "boom"%string)
       (mkBase (mkBaseSubscriber (Some 7%nat) true false) 4 4)
     = (Raised (WrapperThrown (Wrap "E"%string)),
        mkBase (mkBaseSubscriber None true true) 4 4,
        [EvOnErrorImpl (Wrap "boom"%string); EvError (Wrap "boom"%string);
         EvLogError ErrorCb "E"%string]).
Proof.
  split; [left; reflexivity|].
  apply (throwing_error_callback Z false details_WithError
           (fun x o => match x with
                       | ErrorCb => (Raised (StdException "E"%string), o, [])
                       | _ => (Done tt, o, [])
                       end)
           (Wrap "boom"%string)
           (mkBase (mkBaseSubscriber (Some 7%nat) true false) 4 4)
           (mkBase (mkBaseSubscriber None true true) 4 4)
           7%nat "E"%string []).
  - left; reflexivity.
  - reflexivity.
  - intros _. split; reflexivity.
  - reflexivity.
Defined.

(** X13: the same for the complete callback of [WithErrorAndComplete] and
    [onComplete]: a [std::exception] that it throws is logged; a release
    build goes on to [onTerminateImpl] and returns, a debug build throws
    the wrapped exception and does not enter [onTerminateImpl]; the slot
    is empty in both. *)
Theorem throwing_complete_callback (T : Type) (NDEBUG : bool)
    (foreign : ext -> M T Base unit) (o o1 : Base)
    (s : Subscription) (exn : std_exception) (tr1 : list (event T)) :
  subscription_ (super o) = Some s ->
  (NDEBUG = false ->
   gotOnSubscribe_ (super o) = true /\ gotTerminating_ (super o) = false) ->
  foreign CompleteCb
    (set_subscription_ None (if NDEBUG then o else set_gotTerminating_ true o))
  = (Raised (StdException exn), o1, tr1) ->
  onComplete T NDEBUG details_WithErrorAndComplete foreign o
  = if NDEBUG
    then (Done tt, o1,
          [EvOnCompleteImpl; EvComplete] ++ tr1
          ++ [EvLogError CompleteCb exn; EvOnTerminateImpl])
    else (Raised (WrapperThrown (Wrap exn)), o1,
          [EvOnCompleteImpl; EvComplete] ++ tr1
          ++ [EvLogError CompleteCb exn]).
Proof.
  intros Hs Hg H1.
  destruct o as [[sl g1 g2] bt p].
  cbn [super subscription_ gotOnSubscribe_ gotTerminating_] in Hs, Hg.
  subst sl.
  destruct NDEBUG.
  - unfold_methods; unfold_monad; fields; cbn [set_gotTerminating_] in H1;
      fields; rewrite H1; fields;
      rewrite <- ?app_assoc, ?app_nil_r; reflexivity.
  - destruct (Hg eq_refl) as [-> ->].
    unfold_methods; unfold_monad; fields; rewrite H1; fields;
      rewrite <- ?app_assoc, ?app_nil_r; reflexivity.
Qed.

Lemma throwing_complete_callback_witness :
  onComplete Z true details_WithErrorAndComplete
    (fun x o => match x with
                | CompleteCb => (Raised (StdException "E"%string), o, [])
                | _ => (Done tt, o, [])
                end)
    (mkBase (mkBaseSubscriber (Some 7%nat) false false) 4 4)
  = (Done tt,
     mkBase (mkBaseSubscriber None false false) 4 4,
     [EvOnCompleteImpl; EvComplete; EvLogError CompleteCb "E"%string;
      EvOnTerminateImpl]).
Proof.
  apply (throwing_complete_callback Z true
           (fun x o => match x with
                       | CompleteCb => (Raised (StdException "E"%string), o, [])
                       | _ => (Done tt, o, [])
                       end)
           (mkBase (mkBaseSubscriber (Some 7%nat) false false) 4 4)
           (mkBase (mkBaseSubscriber None false false) 4 4)
           7%nat "E"%string []).
  - reflexivity.
  - intros H. discriminate H.
  - reflexivity.
Defined.

(** X14: in any run in which no subscription is stored, once
    [onCompleteImpl], [onErrorImpl] or the producer's [cancel] has been
    entered the slot is empty at the end, however the run ends: the
    subscription is let go of before the hook or the producer is called,
    also when that call throws. *)
Theorem terminal_dispatch_lets_go (T : Type) (NDEBUG : bool) (cls : derived)
    (k : script T) (o : Base) :
  count is_onSubscribeImpl (trace_of (run NDEBUG cls k o)) = 0 ->
  0 < count is_terminal_dispatch (trace_of (run NDEBUG cls k o)) ->
  subscription_ (super (snd (fst (run NDEBUG cls k o)))) = None.
Proof.
  intros Hs Ht. pose proof (run_letting_go T NDEBUG cls k o) as H.
  destruct (run NDEBUG cls k o) as [[r o'] tr].
  unfold trace_of in *. cbn [fst snd] in *.
  destruct (H Hs) as [_ H']. specialize (H' Ht). unfold present in H'.
  destruct (subscription_ (super o')); [cbn in H'; lia|reflexivity].
Qed.

Lemma terminal_dispatch_lets_go_witness :
  count is_onSubscribeImpl
    (trace_of (@run Z false details_WithError
                   (Do (Call (OnError (Wrap "boom"%string)) callbacks_throw)
                       Return)
                   (mkBase (mkBaseSubscriber (Some 7%nat) true false) 4 4)))
  = 0
  /\ 0 < count is_terminal_dispatch
           (trace_of (@run Z false details_WithError
                          (Do (Call (OnError (Wrap "boom"%string))
                                    callbacks_throw) Return)
                          (mkBase (mkBaseSubscriber (Some 7%nat) true false)
                                  4 4)))
  /\ subscription_
       (super (snd (fst (@run Z false details_WithError
                             (Do (Call (OnError (Wrap "boom"%string))
                                       callbacks_throw) Return)
                             (mkBase (mkBaseSubscriber (Some 7%nat) true false)
                                     4 4)))))
     = None.
Proof.
  split; [reflexivity|]. split; [reflexivity|].
  apply (terminal_dispatch_lets_go Z false details_WithError
           (Do (Call (OnError (Wrap "boom"%string)) callbacks_throw) Return)
           (mkBase (mkBaseSubscriber (Some 7%nat) true false) 4 4));
    reflexivity.
Defined.

(** ** The null subscriber, driven by any foreign code *)

Section Null.

Variable T : Type.
Variable kNoFlowControl : Z.

Lemma null_ok_bind ok1 q1 ok2 q2 (m k : M T unit unit) :
  null_ok kNoFlowControl ok1 q1 m -> null_ok kNoFlowControl ok2 q2 k ->
  null_ok kNoFlowControl (ok1 && ok2) (q1 && q2) (m ;; k).
Proof.
  intros Hm Hk u. unfold bind. specialize (Hm u).
  destruct (m u) as [[[[]|y|] u1] tr1].
  - specialize (Hk u1). destruct (k u1) as [[r2 u2] tr2].
    destruct Hm as (A1 & B1 & C1), Hk as (A2 & B2 & C2).
    split; [apply Forall_app; split; assumption|].
    split; intros H; apply andb_prop in H; destruct H as [H1 H2].
    + auto.
    + intros H'. apply andb_prop in H'. destruct H' as [H3 H4]. auto.
  - destruct Hm as (A1 & B1 & C1).
    split; [assumption|]. split; [discriminate|].
    intros H; apply andb_prop in H; destruct H as [H1 H2].
    intros H'. apply andb_prop in H'. destruct H' as [H3 H4].
    discriminate (C1 H1 H3).
  - destruct Hm as (A1 & B1 & C1).
    split; [assumption|].
    split; intros H; apply andb_prop in H; destruct H as [H1 H2].
    + exfalso. exact (B1 H1 eq_refl).
    + intros _. exfalso. exact (B1 H1 eq_refl).
Qed.

Lemma null_ok_swallow ok q (m : M T unit unit) :
  null_ok kNoFlowControl ok q m -> null_ok kNoFlowControl ok q (swallow m).
Proof.
  intros Hm u. unfold swallow. specialize (Hm u).
  destruct (m u) as [[[[]|y|] u1] tr1]; try exact Hm.
  destruct Hm as (A1 & B1 & C1).
  split; [assumption|]. split; [discriminate|reflexivity].
Qed.

Lemma null_ok_weaken ok q ok' q' (m : M T unit unit) :
  (ok' = true -> ok = true) -> (q' = true -> q = true) ->
  null_ok kNoFlowControl ok q m -> null_ok kNoFlowControl ok' q' m.
Proof.
  intros H1 H2 Hm u. specialize (Hm u). destruct (m u) as [[r u1] tr1].
  destruct Hm as (A & B & C). split; [assumption|]. split; auto.
Qed.

Lemma null_ok_emit (s : Subscription) :
  @null_ok T kNoFlowControl true true (emit (EvSubRequest s kNoFlowControl)).
Proof.
  intros u. cbn. repeat split.
  constructor; [eexists; reflexivity|constructor].
  discriminate.
Qed.

Lemma run_null_ok (k : script T) :
  null_ok kNoFlowControl (no_null_subscribe k) (nothrow k) (run_null kNoFlowControl k).
Proof.
  unfold run_null, no_null_subscribe.
  induction k using script_mut
    with (P0 := fun c =>
            null_ok kNoFlowControl
              (every_call
                 (fun o _ => match o with
                             | OnSubscribe None => false
                             | _ => true
                             end) c)
              (nothrow_call c)
              (run_call T unit (NullSubscriber_dispatch T kNoFlowControl) c));
    cbn [run_script run_call every every_call nothrow nothrow_call].
  - intros u. cbn. repeat split; intros; first [constructor | congruence].
  - intros u. cbn. repeat split; intros; first [constructor | congruence].
  - apply null_ok_bind; assumption.
  - apply null_ok_bind; [apply null_ok_swallow|]; assumption.
  - destruct o as [[sub|]| | | | |];
      cbn [NullSubscriber_dispatch NullSubscriber_onSubscribe];
      try (intros u; cbn; repeat split; intros;
           first [constructor | congruence]).
    + eapply null_ok_weaken; cycle 2.
      * apply null_ok_bind; [apply null_ok_emit|apply (H SubRequest)].
      * intros E. cbn [andb] in *.
        apply (forallb_exts (fun x => every _ (env x))). exact E.
      * intros E. cbn [andb].
        apply (forallb_exts (fun x => nothrow (env x))). exact E.
Qed.

End Null.


(** ** The credit that reaches the producer *)

Lemma total_cons {T} (w : event T -> Z) (e : event T) (tr : list (event T)) :
  total w (e :: tr) = w e + total w tr.
Proof. reflexivity. Qed.

Lemma total_nil {T} (w : event T -> Z) : total w [] = 0.
Proof. reflexivity. Qed.

Lemma total_held_back {T} (tr : list (event T)) :
  total held_back tr = granted tr - forwarded tr.
Proof.
  induction tr as [|e tr IH]; [reflexivity|].
  unfold forwarded in *. rewrite !total_cons, granted_cons, IH.
  destruct e; cbn [held_back]; lia.
Qed.

Ltac count_held_back :=
  repeat (rewrite ?total_app, ?total_cons, ?total_nil; cbn [held_back]).

Section Forwarding.

Variable T : Type.
Variable b : Z.
Hypothesis b_pos : 0 < b.
Hypothesis b_max : b <= INT64_MAX.

Ltac use_forwarding H :=
  let Hret := fresh "Hret" in
  destruct H as [Hret H];
  try (exfalso; exact (Hret eq_refl _ eq_refl));
  clear Hret;
  match type of H with
  | ?P -> _ =>
      let W := fresh "W" in
      assert (W : P) by (split; credit_arith);
      specialize (H W); clear W
  end;
  let A := fresh "A" in
  let B := fresh "B" in
  let S := fresh "S" in
  destruct H as [[A B] S]; clear B;
  first [ specialize (A ltac:(discriminate)) | clear A ].

Lemma dispatch_forwards_within NDEBUG cls foreign (o : op T) :
  is_adapter cls = true -> is_signal o = true ->
  returns (foreign NextCb) ->
  (forall x, credit_ok b (foreign x)) ->
  (forall x, forwards_within b (foreign x)) ->
  forwards_within b (BaseSubscriber_dispatch T NDEBUG cls foreign o).
Proof.
  intros Ha Hs Hn Hc Hf.
  assert (Hf' : forall x o,
             match foreign x o with
             | (r, o', tr) =>
                 (x = NextCb -> forall y, r <> Raised y)
                 /\ (window b o ->
                     credit_result b o r o' tr
                     /\ 0 <= total held_back tr)
             end).
  { intros x o'. specialize (Hf x o'). specialize (Hc x o'). specialize (Hn o').
    destruct (foreign x o') as [[r o''] tr] eqn:E. split.
    - intros -> y. specialize (Hn y). rewrite E in Hn. exact Hn.
    - intros W. split; [exact (Hc W)|exact (Hf W)]. }
  clear Hf Hn Hc.
  intros s Hw. unfold credit_result, window in *.
  destruct o; try discriminate Hs; destruct cls; try discriminate Ha;
    unfold_methods; unfold_monad; destruct NDEBUG.
  all: crank_with foreign Hf' ltac:(fun H => use_forwarding H).
  all: prepare; count_held_back; lia.
Qed.

Lemma onSubscribe_forwards_within NDEBUG cls foreign
    (sub : option Subscription) :
  is_adapter cls = true ->
  (forall x, credit_ok b (foreign x)) ->
  (forall x, forwards_within b (foreign x)) ->
  forall o, batch_ o = b -> pending_ o = 0 ->
    match onSubscribe T NDEBUG cls foreign sub o with
    | (_, _, tr) => 0 <= total held_back tr
    end.
Proof.
  intros Ha Hc Hf.
  assert (Hf' : forall x o,
             match foreign x o with
             | (r, o', tr) =>
                 (x = NextCb -> x = SubRequest -> forall y, r <> Raised y)
                 /\ (window b o ->
                     credit_result b o r o' tr
                     /\ 0 <= total held_back tr)
             end).
  { intros x o'. specialize (Hf x o'). specialize (Hc x o').
    destruct (foreign x o') as [[r o''] tr] eqn:E. split.
    - intros ->. discriminate.
    - intros W. split; [exact (Hc W)|exact (Hf W)]. }
  clear Hf Hc.
  intros s Hb Hp. unfold credit_result, window in *.
  destruct cls; try discriminate Ha;
    unfold_methods; unfold_monad; destruct NDEBUG.
  all: crank_with foreign Hf' ltac:(fun H => use_forwarding H).
  all: prepare; count_held_back; lia.
Qed.

Lemma forwards_within_bind (m k : M T Base unit) :
  credit_ok b m -> forwards_within b m -> forwards_within b k ->
  forwards_within b (m ;; k).
Proof.
  intros Hc Hm Hk o Hw. unfold bind.
  specialize (Hm o Hw). specialize (Hc o Hw).
  destruct (m o) as [[[[]|x|] o1] tr1]; try exact Hm.
  destruct Hc as [A _]. specialize (A ltac:(discriminate)). destruct A as [W1 _].
  specialize (Hk o1 W1). destruct (k o1) as [[r o2] tr2].
  rewrite total_app. lia.
Qed.

Lemma forwards_within_swallow (m : M T Base unit) :
  forwards_within b m -> forwards_within b (swallow m).
Proof.
  intros Hm o Hw. unfold swallow. specialize (Hm o Hw).
  destruct (m o) as [[[[]|x|] o1] tr1]; exact Hm.
Qed.

Lemma run_forwards_within NDEBUG cls (k : script T) :
  is_adapter cls = true ->
  next_returns k = true -> signals_only k = true ->
  forwards_within b (run NDEBUG cls k).
Proof.
  intros Ha. unfold run, next_returns, signals_only.
  induction k using script_mut
    with (P0 := fun c =>
            every_call (fun _ env => nothrow (env NextCb)) c = true ->
            every_call (fun o _ => is_signal o) c = true ->
            forwards_within b
              (run_call T Base (BaseSubscriber_dispatch T NDEBUG cls) c)
            /\ credit_ok b
                 (run_call T Base (BaseSubscriber_dispatch T NDEBUG cls) c));
    cbn [run_script run_call every every_call]; intros Hn Hs.
  - intros o Hw. cbn. lia.
  - intros o Hw. cbn. lia.
  - apply andb_prop in Hn, Hs. destruct Hn as [Hn1 Hn2], Hs as [Hs1 Hs2].
    destruct (IHk Hn1 Hs1) as [R1 C1].
    apply forwards_within_bind; auto.
  - apply andb_prop in Hn, Hs. destruct Hn as [Hn1 Hn2], Hs as [Hs1 Hs2].
    destruct (IHk Hn1 Hs1) as [R1 C1].
    apply forwards_within_bind;
      [apply credit_ok_swallow; assumption
      |apply forwards_within_swallow; assumption|auto].
  - apply andb_prop in Hn, Hs. destruct Hn as [Hn1 Hn2], Hs as [Hs1 Hs2].
    assert (Hn' : forall x, every (fun _ env0 => nothrow (env0 NextCb)) (env x) = true)
      by (apply (forallb_exts (fun x => every _ (env x))); exact Hn2).
    assert (Hs' : forall x, every (fun o0 _ => is_signal o0) (env x) = true)
      by (apply (forallb_exts (fun x => every _ (env x))); exact Hs2).
    assert (Hret : returns (fun s => run_script T Base
                      (BaseSubscriber_dispatch T NDEBUG cls) (env NextCb) s))
      by (apply (nothrow_returns T NDEBUG cls); exact Hn1).
    assert (Hc : forall x, credit_ok b (run_script T Base
                      (BaseSubscriber_dispatch T NDEBUG cls) (env x)))
      by (intros x; apply (run_credit_ok T b b_pos b_max NDEBUG cls (env x) Ha);
          [apply Hn'|apply Hs']).
    split.
    + apply dispatch_forwards_within; auto.
    + apply dispatch_credit_ok; auto.
Qed.

(** A run driven by a producer, from the adapter as constructed. *)
Lemma producer_run_forwards NDEBUG cls (k : script T) :
  is_adapter cls = true ->
  producer_run k = true -> next_returns k = true ->
  match run NDEBUG cls k (Base_new b) with
  | (_, _, tr) => 0 <= total held_back tr
  end.
Proof.
  intros Ha Hp Hn.
  destruct k as [| |[[sub| | | | |] env] k'|]; try discriminate Hp.
  cbn [producer_run] in Hp. apply andb_prop in Hp. destruct Hp as [Hp1 Hp2].
  unfold next_returns in Hn. cbn [every every_call] in Hn.
  apply andb_prop in Hn. destruct Hn as [Hn1 Hn3].
  apply andb_prop in Hn1. destruct Hn1 as [_ Hn2].
  assert (Hn' : forall x, next_returns (env x) = true)
    by (apply (forallb_exts (fun x => every _ (env x))); exact Hn2).
  assert (Hs' : forall x, signals_only (env x) = true)
    by (apply (forallb_exts (fun x => signals_only (env x))); exact Hp1).
  rewrite run_Do.
  pose proof (onSubscribe_forwards_within NDEBUG cls
                (fun x => run NDEBUG cls (env x)) sub Ha
                (fun x => run_credit_ok T b b_pos b_max NDEBUG cls (env x) Ha
                            (Hn' x) (Hs' x))
                (fun x => run_forwards_within NDEBUG cls (env x) Ha
                            (Hn' x) (Hs' x))
                (Base_new b) eq_refl eq_refl) as H1.
  pose proof (onSubscribe_credit_ok T b b_pos b_max NDEBUG cls
                (fun x => run NDEBUG cls (env x)) sub Ha
                (fun x => run_credit_ok T b b_pos b_max NDEBUG cls (env x) Ha
                            (Hn' x) (Hs' x))
                (Base_new b) eq_refl eq_refl) as C1.
  pose proof (run_forwards_within NDEBUG cls k' Ha Hn3 Hp2) as H2.
  unfold bind. cbn [BaseSubscriber_dispatch].
  destruct (onSubscribe T NDEBUG cls (fun x => run NDEBUG cls (env x)) sub
              (Base_new b)) as [[[[]|x|] o1] tr1]; try exact H1.
  destruct C1 as [A1 _]. specialize (A1 ltac:(discriminate)).
  destruct A1 as [W1 _]. specialize (H2 o1 W1).
  destruct (run NDEBUG cls k' o1) as [[r o2] tr2].
  rewrite total_app. lia.
Qed.

End Forwarding.

(** X16: the producer never holds more credit than the adapter accounts
    for: what its [request] has been called with is at most what
    [request] was called with on the adapter, so in a run that does not
    abort the credit that has reached it and is not used up is at most
    [pending_], and at most the batch size. *)
Theorem producer_credit_within_pending (T : Type) (NDEBUG : bool)
    (cls : derived) (k : script T) (batch : Z) (r : outcome unit) (o : Base)
    (tr : list (event T)) :
  is_adapter cls = true ->
  0 < batch -> batch <= INT64_MAX ->
  producer_run k = true -> next_returns k = true ->
  run NDEBUG cls k (Base_new batch) = (r, o, tr) ->
  forwarded tr <= granted tr
  /\ (r <> Aborted ->
      forwarded tr - count is_onNextImpl tr <= pending_ o <= batch).
Proof.
  intros Ha Hb1 Hb2 Hp Hn Hrun.
  pose proof (producer_run_forwards T batch Hb1 Hb2 NDEBUG cls k Ha Hp Hn) as H.
  pose proof (producer_run_credit T batch Hb1 Hb2 NDEBUG cls k Ha Hp Hn) as C.
  rewrite Hrun in H, C. rewrite total_held_back in H.
  split; [lia|]. intros Hr.
  destruct C as [C _]. specialize (C Hr). destruct C as [[_ W] C].
  cbn [pending_ Base_new] in C. lia.
Qed.

Lemma producer_credit_within_pending_witness :
  is_adapter details_Base = true
  /\ 0 < 4 /\ 4 <= INT64_MAX
  /\ producer_run (finite_stream 7%nat [1; 2; 3; 4; 5; 6]) = true
  /\ next_returns (finite_stream 7%nat [1; 2; 3; 4; 5; 6]) = true
  /\ forwarded (trace_of (run false details_Base
                              (finite_stream 7%nat [1; 2; 3; 4; 5; 6])
                              (Base_new 4)))
     <= granted (trace_of (run false details_Base
                               (finite_stream 7%nat [1; 2; 3; 4; 5; 6])
                               (Base_new 4))).
Proof.
  assert (Hm : 4 <= INT64_MAX) by (unfold INT64_MAX; lia).
  repeat (split; [first [reflexivity | lia | exact Hm]|]).
  refine (proj1 (producer_credit_within_pending Z false details_Base
                   (finite_stream 7%nat [1; 2; 3; 4; 5; 6]) 4 _ _ _
                   _ _ _ _ _ _));
    first [reflexivity | lia | exact Hm].
Defined.
